(** * Perovskite synthesis upload UI: paste ingestion, table model,
    batch resolution and submission orchestration

  A shallow embedding of the React front end
  (DataTable.jsx, MainForm.jsx, BatchResolution.jsx, App.jsx, services/api.js).

  - JavaScript strings are [string]s whose characters are the code units
    0..255; the white space removed by [String.prototype.trim] is the part
    of the ECMAScript WhiteSpace and LineTerminator classes below 256.
  - A table row is a JavaScript object used as a dictionary from column key
    to cell text: a [gmap string string].
  - React state is passed explicitly: a handler takes the state its closure
    captured and returns the state after its setters have run, together
    with the calls it made to the callbacks received as props.
  - The axios calls of services/api.js are the constructors of the
    free monad [Net]; [run] interprets a handler against a backend and
    records every request with its reply. *)

From Stdlib Require Import String Ascii List Bool Arith Lia DecimalString DecimalNat.
From stdpp Require Import base option list strings gmap.

Import ListNotations.
Open Scope string_scope.
Open Scope list_scope.

(** ** JavaScript primitives used by the components *)

Module JS.

(** Falsy strings: only the empty string ([if (s)], [!s], [a && b], [a || b]). *)
Definition truthy (s : string) : bool :=
  match s with
  | EmptyString => false
  | String _ _ => true
  end.

(** [a || b] on strings. *)
Definition or_else (a b : string) : string := if truthy a then a else b.

(** [a || b] where [a] may be [undefined]. *)
Definition opt_or_else (a : option string) (b : string) : string :=
  match a with
  | Some s => or_else s b
  | None => b
  end.

(** White space as [trim] sees it: TAB, LF, VT, FF, CR, SP and NBSP. *)
Definition is_ws (c : ascii) : bool :=
  let n := nat_of_ascii c in
  Nat.eqb n 9 || Nat.eqb n 10 || Nat.eqb n 11 || Nat.eqb n 12
  || Nat.eqb n 13 || Nat.eqb n 32 || Nat.eqb n 160.

Fixpoint trimStart (s : string) : string :=
  match s with
  | EmptyString => EmptyString
  | String c r => if is_ws c then trimStart r else s
  end.

Fixpoint trimEnd (s : string) : string :=
  match s with
  | EmptyString => EmptyString
  | String c r =>
      match trimEnd r with
      | EmptyString => if is_ws c then EmptyString else String c EmptyString
      | r' => String c r'
      end
  end.

(** [s.trim()] *)
Definition trim (s : string) : string := trimEnd (trimStart s).

(** [s.includes(c)] for a one-character needle. *)
Fixpoint includes (s : string) (c : ascii) : bool :=
  match s with
  | EmptyString => false
  | String d r => Ascii.eqb d c || includes r c
  end.

(** [s.split(c)] for a one-character separator: the pieces between the
    separators, in order; never the empty list. *)
Fixpoint split (s : string) (sep : ascii) : list string :=
  match s with
  | EmptyString => [EmptyString]
  | String c r =>
      if Ascii.eqb c sep then EmptyString :: split r sep
      else match split r sep with
           | [] => [String c EmptyString]
           | piece :: pieces => String c piece :: pieces
           end
  end.

(** [xs.find(p)] and [xs.some(p)]. *)
Definition find {A} (p : A -> bool) (xs : list A) : option A := List.find p xs.
Definition some {A} (p : A -> bool) (xs : list A) : bool := existsb p xs.

(** Template literal [`${n}`] for a non-negative integer. *)
Definition of_nat (n : nat) : string := NilEmpty.string_of_uint (Nat.to_uint n).

Definition LF : ascii := ascii_of_nat 10.
Definition TAB : ascii := ascii_of_nat 9.
Definition COMMA : ascii := ascii_of_nat 44.

(** A string made of white space only (the empty string included). *)
Fixpoint blank (s : string) : bool :=
  match s with
  | EmptyString => true
  | String c r => is_ws c && blank r
  end.

(** How many times the character [c] occurs in [s]. *)
Fixpoint count (s : string) (c : ascii) : nat :=
  match s with
  | EmptyString => 0
  | String d r => (if Ascii.eqb d c then 1 else 0) + count r c
  end.

End JS.

(** A row object: [id], [Timestamp], [Operator] and one key per field. *)
Abbreviation Row := (gmap string string).

(** ** DataTable.jsx *)

Module DataTable.

(** The column descriptors handed to the grid ([renderEditCell] is the
    same editor for every column and is left out). *)
Record Column := mkColumn
  { key : string; name : string; resizable : bool; width : nat }.

Definition isSampleName (f : string) : bool := String.eqb f "Sample Name".
Definition isSampleDescription (f : string) : bool :=
  String.eqb f "Sample Description".
(** [f !== 'Sample Name' && f !== 'Sample Description'] *)
Definition isOther (f : string) : bool :=
  negb (isSampleName f) && negb (isSampleDescription f).

Definition fieldColumn (w : nat) (f : string) : Column :=
  {| key := f; name := f; resizable := true; width := w |}.

(** [if (x) orderedColumns.push(...)] for the result of a [find]. *)
Definition pushIf {A} (found : option string) (mk : string -> A) : list A :=
  match found with
  | Some f => if JS.truthy f then [mk f] else []
  | None => []
  end.

(** The [columns] memo. *)
Definition columns (fields : list string) : list Column :=
  match fields with
  | [] => []
  | _ =>
      let operatorColumn :=
        {| key := "Operator"; name := "Operator"; resizable := true; width := 150 |} in
      let timestampColumn :=
        {| key := "Timestamp"; name := "Timestamp"; resizable := true; width := 120 |} in
      let sampleNameField := JS.find isSampleName fields in
      let sampleDescField := JS.find isSampleDescription fields in
      let otherFields := filter (fun f => isOther f = true) fields in
      pushIf sampleNameField (fieldColumn 150)
      ++ [operatorColumn]
      ++ [timestampColumn]
      ++ map (fieldColumn 150) otherFields
      ++ pushIf sampleDescField (fieldColumn 200)
  end.

(** The [columnOrder] array built inside [handlePaste]. *)
Definition columnOrder (fields : list string) : list string :=
  let sampleNameField := JS.find isSampleName fields in
  let sampleDescField := JS.find isSampleDescription fields in
  let otherFields := filter (fun f => isOther f = true) fields in
  pushIf sampleNameField id
  ++ ["Operator"]
  ++ ["Timestamp"]
  ++ otherFields
  ++ pushIf sampleDescField id.

(** [row[field] && String(row[field]).trim() !== ''] *)
Definition cellFilled (row : Row) (field : string) : bool :=
  match row !! field with
  | Some v => JS.truthy v && negb (String.eqb (JS.trim v) "")
  | None => false
  end.

(** [fields.some(field => ...)], the predicate of the [filter]. *)
Definition rowNonEmpty (fields : list string) (row : Row) : bool :=
  JS.some (cellFilled row) fields.

(** [const { id, ...rest } = row; return rest;] *)
Definition stripId (row : Row) : Row := delete "id" row.

(** The value every handler hands to [onChange]:
    [rows.filter(nonEmpty).map(stripId)]. *)
Definition cleanedRows (fields : list string) (rows : list Row) : list Row :=
  map stripId (filter (fun row => rowNonEmpty fields row = true) rows).

(** What a handler did: the [rows] state afterwards and the arguments of
    its [onChange] calls, in order. *)
Record Outcome := mkOutcome
  { rows_after : list Row; onChange_calls : list (list Row) }.

Definition handleRowsChange (fields : list string) (newRows : list Row) : Outcome :=
  {| rows_after := newRows; onChange_calls := [cleanedRows fields newRows] |}.

(** The object literal plus [fields.forEach(field => row[field] = '')]. *)
Definition blankRow (fields : list string) (operatorName : string) (rowId : string) : Row :=
  fold_left (fun row field => <[field := ""]> row) fields
    (<["Operator" := JS.or_else operatorName ""]>
       (<["Timestamp" := ""]> (<["id" := rowId]> ∅))).

(** [cells.forEach((cell, cellIdx) => { if (cellIdx < columnOrder.length) ... })] *)
Fixpoint assignCells (order : list string) (cellIdx : nat)
    (cells : list string) (row : Row) : Row :=
  match cells with
  | [] => row
  | cell :: rest =>
      let row' :=
        if Nat.ltb cellIdx (length order) then
          match order !! cellIdx with
          | Some columnKey => <[columnKey := cell]> row
          | None => row
          end
        else row in
      assignCells order (S cellIdx) rest row'
  end.

(** [pastedData.split('\n').filter(row => row.trim())] *)
Definition pastedRows (pastedData : string) : list string :=
  filter (fun row => JS.truthy (JS.trim row) = true) (JS.split pastedData JS.LF).

(** One line to its trimmed cells: tab-separated when the line has a tab,
    comma-separated otherwise. *)
Definition parseRow (rowString : string) : list string :=
  let cells :=
    if JS.includes rowString JS.TAB then JS.split rowString JS.TAB
    else JS.split rowString JS.COMMA in
  map JS.trim cells.

(** [parsedRows.map((cells, idx) => ...)], [base] being [rows.length]. *)
Definition newRows (fields : list string) (operatorName : string) (base : nat)
    (parsedRows : list (list string)) : list Row :=
  imap (fun idx cells =>
          assignCells (columnOrder fields) 0 cells
            (blankRow fields operatorName ("row-" +:+ JS.of_nat (base + idx))))
       parsedRows.

Record PasteOutcome := mkPasteOutcome
  { paste : Outcome; defaultPrevented : bool }.

Definition handlePaste (fields : list string) (operatorName : string)
    (rows : list Row) (pastedData : string) : PasteOutcome :=
  match pastedRows pastedData with
  | [] => {| paste := {| rows_after := rows; onChange_calls := [] |};
             defaultPrevented := false |}
  | lines =>
      let parsedRows := map parseRow lines in
      let added := newRows fields operatorName (length rows) parsedRows in
      let allRows := rows ++ added in
      {| paste := {| rows_after := rows ++ added;
                     onChange_calls := [cleanedRows fields allRows] |};
         defaultPrevented := true |}
  end.

Definition handleAddRow (fields : list string) (operatorName : string)
    (rows : list Row) : Outcome :=
  {| rows_after := rows ++ [blankRow fields operatorName ("row-" +:+ JS.of_nat (length rows))];
     onChange_calls := [] |}.

(** [rows.slice(0, -1)] *)
Definition dropLast (rows : list Row) : list Row := take (length rows - 1) rows.

Definition handleRemoveRow (fields : list string) (rows : list Row) : Outcome :=
  if Nat.ltb 0 (length rows) then
    {| rows_after := dropLast rows;
       onChange_calls := [cleanedRows fields (dropLast rows)] |}
  else {| rows_after := rows; onChange_calls := [] |}.

Definition handleClearAll (fields : list string) (operatorName : string)
    (rows : list Row) : Outcome :=
  {| rows_after :=
       map (fun row =>
              fold_left (fun newRow field => <[field := ""]> newRow) fields
                (<["Operator" := JS.or_else operatorName ""]>
                   (<["Timestamp" := ""]>
                      (match row !! "id" with
                       | Some i => <["id" := i]> ∅
                       | None => ∅
                       end)))) rows;
     onChange_calls := [[]] |}.

(** [onChange={setTableData}] in MainForm.jsx: the form's copy of the
    table once a handler has run. *)
Definition tableDataAfter (tableData : list Row) (o : Outcome) : list Row :=
  List.last (onChange_calls o) tableData.

(** The "Remove Last Row" button: [disabled={rows.length === 0}]. *)
Definition removeButtonDisabled (rows : list Row) : bool := Nat.eqb (length rows) 0.

(** The keys of a row object in the grid. *)
Definition rowKeys (fields : list string) : gset string :=
  {["id"]} ∪ {["Timestamp"]} ∪ {["Operator"]} ∪ list_to_set fields.

(** The effect that runs when [fields] (or [operatorName]) changes: with a
    schema at hand the grid starts over with no row. *)
Definition fieldsEffect (fields : list string) (rows : list Row) : Outcome :=
  match fields with
  | [] => {| rows_after := rows; onChange_calls := [] |}
  | _ :: _ => {| rows_after := []; onChange_calls := [[]] |}
  end.

(** Row number [i] carries the identifier [row-i], as [handleAddRow] and
    [handlePaste] hand them out. *)
Definition wellNumbered (rows : list Row) : Prop :=
  forall (i : nat) (row : Row),
    rows !! i = Some row -> row !! "id" = Some ("row-" +:+ JS.of_nat i).

End DataTable.


(** ** services/api.js: the shapes that cross the wire *)

(** What a rejected axios promise carries, as far as the handlers read it:
    [err.response?.data?.detail] and [err.message]. *)
Module Err.
Record t := mk { detail : option string; message : string }.
End Err.

(** The settlement of an awaited request. *)
Inductive Reply (A : Type) : Type :=
| Returned (response : A)
| Threw (err : Err.t).
Arguments Returned {A} response.
Arguments Threw {A} err.

Module UserInfo.
Record t := mk
  { name : string; email : string; orcid : string; projects : list string }.
End UserInfo.

Module Match.
Record t := mk
  { unique_id : string; sample_name : string; description : option string }.
End Match.

(** Response of POST /batch/resolve. *)
Module Resolution.
Record t := mk
  { status : string;
    batch_id : option string;
    input : option string;
    matches : list Match.t }.
End Resolution.

Module Summary.
Record t := mk
  { Project : string;
    Synthesis_Type : string;
    Samples_Uploaded : nat;
    Failed : nat;
    Total_Rows : nat;
    Errors : list string }.
End Summary.

(** Response of POST /synthesis/upload. *)
Module UploadResponse.
Record t := mk
  { success : bool; message : option string; summary : option Summary.t }.
End UploadResponse.

(** Response of POST /batch/create. *)
Module CreateResponse.
Record t := mk
  { success : bool; unique_id : option string; message : option string }.
End CreateResponse.

(** Body of POST /synthesis/upload; [batch_id] is [null] when [None]. *)
Module UploadData.
Record t := mk
  { email : string;
    orcid : string;
    user_name : string;
    project : string;
    synthesis_type : string;
    batch_id : option string;
    data : list Row }.
End UploadData.

(** Body of POST /batch/create. *)
Module BatchData.
Record t := mk
  { batch_name : string;
    batch_id : string;
    batch_description : string;
    orcid : string;
    project : option string }.
End BatchData.

(** The object kept in [pendingUploadData] while the operator decides. *)
Module Pending.
Record t := mk
  { project : string; synthesisType : string; data : list Row }.
End Pending.

(** ** Handlers that await the backend *)

(** A handler is a tree of requests: each node is one exported function of
    services/api.js with its arguments, and the continuation is the code
    after the [await] (the [catch] block when the promise rejects). *)
Inductive Net (R : Type) : Type :=
| Ret (result : R)
| resolveBatch (batchId orcid project : string)
    (k : Reply Resolution.t -> Net R)
| uploadSynthesisData (uploadData : UploadData.t)
    (k : Reply UploadResponse.t -> Net R)
| createBatch (batchData : BatchData.t)
    (k : Reply CreateResponse.t -> Net R).
Arguments Ret {R} result.
Arguments resolveBatch {R} batchId orcid project k.
Arguments uploadSynthesisData {R} uploadData k.
Arguments createBatch {R} batchData k.

Fixpoint bind {A B} (m : Net A) (f : A -> Net B) : Net B :=
  match m with
  | Ret a => f a
  | resolveBatch b o p k => resolveBatch b o p (fun reply => bind (k reply) f)
  | uploadSynthesisData d k => uploadSynthesisData d (fun reply => bind (k reply) f)
  | createBatch d k => createBatch d (fun reply => bind (k reply) f)
  end.

Declare Scope net_scope.
Delimit Scope net_scope with net.
Notation "x <- m ;; f" := (bind m (fun x => f))
  (at level 100, m at next level, right associativity) : net_scope.

(** The service behind the three endpoints. *)
Record Backend := mkBackend
  { resolve_reply : string -> string -> string -> Reply Resolution.t;
    upload_reply : UploadData.t -> Reply UploadResponse.t;
    create_reply : BatchData.t -> Reply CreateResponse.t }.

(** One request as observed on the wire, with how it settled. *)
Inductive Event : Type :=
| Resolve_call (batchId orcid project : string) (reply : Reply Resolution.t)
| Upload_call (uploadData : UploadData.t) (reply : Reply UploadResponse.t)
| Create_call (batchData : BatchData.t) (reply : Reply CreateResponse.t).

Definition is_upload (e : Event) : bool :=
  match e with Upload_call _ _ => true | _ => false end.

(** Running a handler to completion: the requests it issued, in order, and
    its result. *)
Fixpoint run {R} (srv : Backend) (m : Net R) : list Event * R :=
  match m with
  | Ret r => ([], r)
  | resolveBatch b o p k =>
      let reply := resolve_reply srv b o p in
      let '(evs, r) := run srv (k reply) in
      (Resolve_call b o p reply :: evs, r)
  | uploadSynthesisData d k =>
      let reply := upload_reply srv d in
      let '(evs, r) := run srv (k reply) in
      (Upload_call d reply :: evs, r)
  | createBatch d k =>
      let reply := create_reply srv d in
      let '(evs, r) := run srv (k reply) in
      (Create_call d reply :: evs, r)
  end.

(** ** MainForm.jsx *)

Module MainForm.

Record State := mkState
  { synthesisFields : gmap string (list string);
    selectedProject : string;
    selectedSynthesisType : string;
    batchId : string;
    tableData : list Row;
    loading : bool;
    error : string }.

Definition setError (msg : string) (st : State) : State :=
  {| synthesisFields := synthesisFields st;
     selectedProject := selectedProject st;
     selectedSynthesisType := selectedSynthesisType st;
     batchId := batchId st;
     tableData := tableData st;
     loading := loading st;
     error := msg |}.

Definition setLoading (b : bool) (st : State) : State :=
  {| synthesisFields := synthesisFields st;
     selectedProject := selectedProject st;
     selectedSynthesisType := selectedSynthesisType st;
     batchId := batchId st;
     tableData := tableData st;
     loading := b;
     error := error st |}.

(** Calls made to the props [onUploadSuccess] and [onShowBatchResolution]. *)
Inductive Callback : Type :=
| onUploadSuccess (message : option string) (summary : option Summary.t)
| onShowBatchResolution (resolution : Resolution.t) (uploadData : Pending.t).

Definition uploadData (userInfo : UserInfo.t) (resolvedBatchId : option string)
    (st : State) : UploadData.t :=
  {| UploadData.email := UserInfo.email userInfo;
     UploadData.orcid := UserInfo.orcid userInfo;
     UploadData.user_name := UserInfo.name userInfo;
     UploadData.project := selectedProject st;
     UploadData.synthesis_type := selectedSynthesisType st;
     UploadData.batch_id := resolvedBatchId;
     UploadData.data := tableData st |}.

Definition performUpload (userInfo : UserInfo.t) (resolvedBatchId : option string)
    (st : State) : Net (State * list Callback) :=
  uploadSynthesisData (uploadData userInfo resolvedBatchId st)
    (fun reply =>
       match reply with
       | Returned response =>
           if UploadResponse.success response then
             Ret (setLoading false st,
                  [onUploadSuccess (UploadResponse.message response)
                                   (UploadResponse.summary response)])
           else
             Ret (setLoading false
                    (setError (JS.opt_or_else (UploadResponse.message response)
                                              "Upload failed") st), [])
       | Threw err =>
           Ret (setLoading false
                  (setError (JS.opt_or_else (Err.detail err)
                               "An error occurred during upload") st), [])
       end).

(** [status === 'not_found' || status === 'multiple_matches'] *)
Definition needsDecision (resolution : Resolution.t) : bool :=
  String.eqb (Resolution.status resolution) "not_found"
  || String.eqb (Resolution.status resolution) "multiple_matches".

Definition pending (st : State) : Pending.t :=
  {| Pending.project := selectedProject st;
     Pending.synthesisType := selectedSynthesisType st;
     Pending.data := tableData st |}.

Definition handleUpload (userInfo : UserInfo.t) (st0 : State)
    : Net (State * list Callback) :=
  let st := setError "" st0 in
  if negb (JS.truthy (selectedProject st)) then
    Ret (setError "Please select a project" st, [])
  else if negb (JS.truthy (selectedSynthesisType st)) then
    Ret (setError "Please select a synthesis type" st, [])
  else if Nat.eqb (length (tableData st)) 0 then
    Ret (setError "Please enter at least one row of data" st, [])
  else
    let st := setLoading true st in
    if JS.truthy (JS.trim (batchId st)) then
      resolveBatch (JS.trim (batchId st)) (UserInfo.orcid userInfo) (selectedProject st)
        (fun reply =>
           match reply with
           | Returned resolution =>
               if needsDecision resolution then
                 Ret (setLoading false st,
                      [onShowBatchResolution resolution (pending st)])
               else performUpload userInfo (Resolution.batch_id resolution) st
           | Threw err =>
               Ret (setLoading false
                      (setError (JS.opt_or_else (Err.detail err)
                                   "An error occurred during upload") st), [])
           end)
    else performUpload userInfo None st.

Definition handleSynthesisTypeChange (value : string) (st : State) : State :=
  {| synthesisFields := synthesisFields st;
     selectedProject := selectedProject st;
     selectedSynthesisType := value;
     batchId := batchId st;
     tableData := [];
     loading := loading st;
     error := "" |}.

Definition handleCancel (st : State) : State :=
  {| synthesisFields := synthesisFields st;
     selectedProject := selectedProject st;
     selectedSynthesisType := "";
     batchId := "";
     tableData := [];
     loading := loading st;
     error := "" |}.

(** [selectedSynthesisType ? synthesisFields[selectedSynthesisType] || [] : []] *)
Definition currentFields (st : State) : list string :=
  if JS.truthy (selectedSynthesisType st) then
    match synthesisFields st !! selectedSynthesisType st with
    | Some fields => fields
    | None => []
    end
  else [].

(** [selectedSynthesisType && currentFields.length > 0]: the grid and the
    two buttons are rendered only then. *)
Definition showTable (st : State) : bool :=
  JS.truthy (selectedSynthesisType st) && Nat.ltb 0 (length (currentFields st)).

End MainForm.

(** ** BatchResolution.jsx *)

Module BatchResolution.

Record State := mkState
  { selectedBatch : string;
    batchName : string;
    batchId : string;
    batchDescription : string;
    loading : bool;
    error : string }.

(** [useState(resolution.input || '')] and the other initial values. *)
Definition initial (resolution : Resolution.t) : State :=
  {| selectedBatch := "";
     batchName := "";
     batchId := JS.opt_or_else (Resolution.input resolution) "";
     batchDescription := "";
     loading := false;
     error := "" |}.

Definition setError (msg : string) (st : State) : State :=
  {| selectedBatch := selectedBatch st;
     batchName := batchName st;
     batchId := batchId st;
     batchDescription := batchDescription st;
     loading := loading st;
     error := msg |}.

Definition setLoading (b : bool) (st : State) : State :=
  {| selectedBatch := selectedBatch st;
     batchName := batchName st;
     batchId := batchId st;
     batchDescription := batchDescription st;
     loading := b;
     error := error st |}.

(** Calls made to the props [onResolve] and [onCancel]. *)
Inductive Callback : Type :=
| onResolve (resolvedBatchId : option string)
| onCancel.

Definition handleCreateBatch (userInfo : UserInfo.t) (project : option string)
    (st0 : State) : Net (State * list Callback) :=
  let st := setError "" st0 in
  if negb (JS.truthy (JS.trim (batchName st))) then
    Ret (setError "Batch name is required" st, [])
  else if negb (JS.truthy (JS.trim (batchId st))) then
    Ret (setError "Batch ID is required" st, [])
  else
    let st := setLoading true st in
    createBatch
      {| BatchData.batch_name := batchName st;
         BatchData.batch_id := batchId st;
         BatchData.batch_description := batchDescription st;
         BatchData.orcid := UserInfo.orcid userInfo;
         BatchData.project := project |}
      (fun reply =>
         match reply with
         | Returned response =>
             if CreateResponse.success response then
               Ret (setLoading false st,
                    [onResolve (CreateResponse.unique_id response)])
             else
               Ret (setLoading false
                      (setError (JS.opt_or_else (CreateResponse.message response)
                                   "Failed to create batch") st), [])
         | Threw err =>
             Ret (setLoading false
                    (setError (JS.opt_or_else (Err.detail err)
                                 "An error occurred while creating the batch") st), [])
         end).

Definition handleSelectBatch (resolution : Resolution.t) (st : State)
    : State * list Callback :=
  if negb (JS.truthy (selectedBatch st)) then
    (setError "Please select a batch from the list" st, [])
  else
    match JS.find (fun m => String.eqb (Match.unique_id m) (selectedBatch st))
                  (Resolution.matches resolution) with
    | Some m => (st, [onResolve (Some (Match.unique_id m))])
    | None => (st, [])
    end.


End BatchResolution.

(** ** App.jsx *)

Module App.

Inductive View : Type := login | main | batch_resolution | summary.

(** The [useState] cells of [App], and the texts shown through
    [window.alert], oldest first. *)
Record State := mkState
  { currentView : View;
    userInfo : option UserInfo.t;
    sessionToken : option string;
    batchResolution : option Resolution.t;
    pendingUploadData : option Pending.t;
    summaryMessage : option string;
    summaryDetails : option Summary.t;
    alerts : list string }.

Definition handleLoginSuccess (user : UserInfo.t) (token : string) (app : State) : State :=
  {| currentView := main;
     userInfo := Some user;
     sessionToken := Some token;
     batchResolution := batchResolution app;
     pendingUploadData := pendingUploadData app;
     summaryMessage := summaryMessage app;
     summaryDetails := summaryDetails app;
     alerts := alerts app |}.

Definition handleShowBatchResolution (resolution : Resolution.t)
    (uploadData : Pending.t) (app : State) : State :=
  {| currentView := batch_resolution;
     userInfo := userInfo app;
     sessionToken := sessionToken app;
     batchResolution := Some resolution;
     pendingUploadData := Some uploadData;
     summaryMessage := summaryMessage app;
     summaryDetails := summaryDetails app;
     alerts := alerts app |}.

Definition handleUploadSuccess (message : option string)
    (summary' : option Summary.t) (app : State) : State :=
  {| currentView := summary;
     userInfo := userInfo app;
     sessionToken := sessionToken app;
     batchResolution := batchResolution app;
     pendingUploadData := pendingUploadData app;
     summaryMessage := message;
     summaryDetails := summary';
     alerts := alerts app |}.

Definition handleAddMore (app : State) : State :=
  {| currentView := main;
     userInfo := userInfo app;
     sessionToken := sessionToken app;
     batchResolution := batchResolution app;
     pendingUploadData := pendingUploadData app;
     summaryMessage := Some "";
     summaryDetails := None;
     alerts := alerts app |}.

(** ['Upload failed: ' + x] prints a missing [x] as the word undefined. *)
Definition shown (x : option string) : string :=
  match x with
  | Some s => s
  | None => "undefined"
  end.

(** The [TypeError] raised by reading a property of [null]; the handlers
    only ever put its [message] into an alert. *)
Definition nullRead (property : string) : Err.t :=
  {| Err.detail := None;
     Err.message := "Cannot read properties of null (reading '" +:+ property +:+ "')" |}.

(** The part shared verbatim by [handleBatchResolved] and
    [handleBatchResolutionCancel]: everything after the [await], the
    [catch] block, and the two setters that clear the resolution state. *)
Definition settle (reply : Reply UploadResponse.t) (app : State) : State :=
  match reply with
  | Returned response =>
      if UploadResponse.success response then
        {| currentView := summary;
           userInfo := userInfo app;
           sessionToken := sessionToken app;
           batchResolution := None;
           pendingUploadData := None;
           summaryMessage := UploadResponse.message response;
           summaryDetails := UploadResponse.summary response;
           alerts := alerts app |}
      else
        {| currentView := main;
           userInfo := userInfo app;
           sessionToken := sessionToken app;
           batchResolution := None;
           pendingUploadData := None;
           summaryMessage := summaryMessage app;
           summaryDetails := summaryDetails app;
           alerts := alerts app
                     ++ ["Upload failed: " +:+ shown (UploadResponse.message response)] |}
  | Threw err =>
      {| currentView := main;
         userInfo := userInfo app;
         sessionToken := sessionToken app;
         batchResolution := None;
         pendingUploadData := None;
         summaryMessage := summaryMessage app;
         summaryDetails := summaryDetails app;
         alerts := alerts app
                   ++ ["Upload error: "
                       +:+ JS.opt_or_else (Err.detail err) (Err.message err)] |}
  end.

Definition uploadData (user : UserInfo.t) (pendingData : Pending.t)
    (batch_id : option string) : UploadData.t :=
  {| UploadData.email := UserInfo.email user;
     UploadData.orcid := UserInfo.orcid user;
     UploadData.user_name := UserInfo.name user;
     UploadData.project := Pending.project pendingData;
     UploadData.synthesis_type := Pending.synthesisType pendingData;
     UploadData.batch_id := batch_id;
     UploadData.data := Pending.data pendingData |}.

Definition handleBatchResolved (resolvedBatchId : option string) (app : State)
    : Net State :=
  match userInfo app, pendingUploadData app with
  | None, _ => Ret (settle (Threw (nullRead "email")) app)
  | Some _, None => Ret (settle (Threw (nullRead "project")) app)
  | Some user, Some pendingData =>
      uploadSynthesisData (uploadData user pendingData resolvedBatchId)
        (fun reply => Ret (settle reply app))
  end.

Definition handleBatchResolutionCancel (app : State) : Net State :=
  match userInfo app, pendingUploadData app with
  | None, _ => Ret (settle (Threw (nullRead "email")) app)
  | Some _, None => Ret (settle (Threw (nullRead "project")) app)
  | Some user, Some pendingData =>
      uploadSynthesisData (uploadData user pendingData None)
        (fun reply => Ret (settle reply app))
  end.

(** The JSX wiring of [MainForm]'s props. *)
Definition fromMainForm (cb : MainForm.Callback) (app : State) : State :=
  match cb with
  | MainForm.onUploadSuccess message summary' =>
      handleUploadSuccess message summary' app
  | MainForm.onShowBatchResolution resolution uploadData' =>
      handleShowBatchResolution resolution uploadData' app
  end.

(** The JSX wiring of [BatchResolution]'s props. *)
Definition fromBatchResolution (cb : BatchResolution.Callback) (app : State)
    : Net State :=
  match cb with
  | BatchResolution.onResolve resolvedBatchId => handleBatchResolved resolvedBatchId app
  | BatchResolution.onCancel => handleBatchResolutionCancel app
  end.

Fixpoint fromBatchResolutionAll (cbs : list BatchResolution.Callback) (app : State)
    : Net State :=
  match cbs with
  | [] => Ret app
  | cb :: rest =>
      (app' <- fromBatchResolution cb app ;; fromBatchResolutionAll rest app')%net
  end.

(** A click on "Upload Data": [MainForm] is mounted only in the main view
    with a logged-in user. *)
Definition clickUpload (form : MainForm.State) (app : State)
    : Net (MainForm.State * State) :=
  match currentView app, userInfo app with
  | main, Some user =>
      (r <- MainForm.handleUpload user form ;;
       Ret (fst r, fold_left (fun a cb => fromMainForm cb a) (snd r) app))%net
  | _, _ => Ret (form, app)
  end.

(** A click on "Confirm Selection": [BatchResolution] is mounted only in
    the batch_resolution view with a resolution at hand. *)
Definition clickConfirmSelection (panel : BatchResolution.State) (app : State)
    : Net (BatchResolution.State * State) :=
  match currentView app, batchResolution app with
  | batch_resolution, Some resolution =>
      let '(panel', cbs) := BatchResolution.handleSelectBatch resolution panel in
      (app' <- fromBatchResolutionAll cbs app ;; Ret (panel', app'))%net
  | _, _ => Ret (panel, app)
  end.

(** A click on "Cancel (Skip Batch Linking)". *)
Definition clickCancel (app : State) : Net State :=
  match currentView app, batchResolution app with
  | batch_resolution, Some _ => fromBatchResolution BatchResolution.onCancel app
  | _, _ => Ret app
  end.

(** The state in which a submission waits for the operator's decision. *)
Definition suspended (app : State) (user : UserInfo.t)
    (resolution : Resolution.t) (pendingData : Pending.t) : Prop :=
  currentView app = batch_resolution
  /\ userInfo app = Some user
  /\ batchResolution app = Some resolution
  /\ pendingUploadData app = Some pendingData
  /\ MainForm.needsDecision resolution = true.

(** A click on "Create Batch".  The panel receives [userInfo] and
    [pendingUploadData?.project] as props; without a user the request
    object cannot be built and the [catch] block reports the failure. *)
Definition clickCreateBatch (panel : BatchResolution.State) (app : State)
    : Net (BatchResolution.State * State) :=
  match currentView app, batchResolution app with
  | batch_resolution, Some _ =>
      match userInfo app with
      | Some user =>
          (r <- BatchResolution.handleCreateBatch user
                  (option_map Pending.project (pendingUploadData app)) panel ;;
           app' <- fromBatchResolutionAll (snd r) app ;;
           Ret (fst r, app'))%net
      | None =>
          let st := BatchResolution.setError "" panel in
          if negb (JS.truthy (JS.trim (BatchResolution.batchName st))) then
            Ret (BatchResolution.setError "Batch name is required" st, app)
          else if negb (JS.truthy (JS.trim (BatchResolution.batchId st))) then
            Ret (BatchResolution.setError "Batch ID is required" st, app)
          else
            Ret (BatchResolution.setLoading false
                   (BatchResolution.setError
                      "An error occurred while creating the batch"
                      (BatchResolution.setLoading true st)), app)
      end
  | _, _ => Ret (panel, app)
  end.

End App.

(** ** Login.jsx *)

(** What the [catch] block of the login form reads from a rejected
    request: [err.response?.data?.detail], [.message], [.error] and
    [err.message]. *)
Module LoginErr.
Record t := mk
  { detail : option string;
    data_message : option string;
    data_error : option string;
    message : option string }.
End LoginErr.

(** Response of POST /auth/login. *)
Module LoginResponse.
Record t := mk
  { success : bool;
    user : option UserInfo.t;
    session_token : option string;
    message : option string }.
End LoginResponse.

Inductive LoginReply : Type :=
| LoginReturned (response : LoginResponse.t)
| LoginThrew (err : LoginErr.t).

Module Login.

Record State := mkState { email : string; loading : bool; error : string }.

Definition setError (msg : string) (st : State) : State :=
  {| email := email st; loading := loading st; error := msg |}.

Definition setLoading (b : bool) (st : State) : State :=
  {| email := email st; loading := b; error := error st |}.

(** Calls made to the prop [onLoginSuccess]. *)
Inductive Callback : Type :=
| onLoginSuccess (user : option UserInfo.t) (token : option string).

(** What the handler leaves behind: the form, the calls to the parent,
    and the browser's [localStorage]. *)
Record Outcome := mkOutcome
  { state : State; callbacks : list Callback; localStorage : gmap string string }.

(** The handler either finishes at once or awaits [login(email)]. *)
Inductive Step : Type :=
| Done (o : Outcome)
| AwaitLogin (email : string) (k : LoginReply -> Outcome).

(** [handleSubmit], after [e.preventDefault()]; [storage] is the content of
    [localStorage] when the form is submitted. *)
Definition handleSubmit (storage : gmap string string) (st0 : State) : Step :=
  let st := setError "" st0 in
  if negb (JS.truthy (JS.trim (email st))) then
    Done {| state := setError "Please enter a valid email address" st;
            callbacks := [];
            localStorage := storage |}
  else
    let st := setLoading true st in
    AwaitLogin (JS.trim (email st))
      (fun reply =>
         match reply with
         | LoginReturned response =>
             if LoginResponse.success response then
               {| state := setLoading false st;
                  callbacks := [onLoginSuccess (LoginResponse.user response)
                                               (LoginResponse.session_token response)];
                  localStorage :=
                    <["sessionToken" := App.shown (LoginResponse.session_token response)]>
                      storage |}
             else
               {| state := setLoading false
                             (setError (JS.opt_or_else (LoginResponse.message response)
                                          "Login failed") st);
                  callbacks := [];
                  localStorage := storage |}
         | LoginThrew err =>
             let errorMessage :=
               JS.opt_or_else (LoginErr.detail err)
                 (JS.opt_or_else (LoginErr.data_message err)
                    (JS.opt_or_else (LoginErr.data_error err)
                       (JS.opt_or_else (LoginErr.message err)
                          "An error occurred during login"))) in
             {| state := setLoading false (setError errorMessage st);
                callbacks := [];
                localStorage := storage |}
         end).

(** Running the handler against a service. *)
Definition settleWith (reply : string -> LoginReply) (s : Step)
    : list (string * LoginReply) * Outcome :=
  match s with
  | Done o => ([], o)
  | AwaitLogin e k => ([(e, reply e)], k (reply e))
  end.

End Login.

(** ** The specification's wording, for comparison with the code *)

Module Spec.

(** "if a field named Sample Name exists, it is column 1; next is always
    Operator, then always Timestamp; then every remaining schema field in
    its original relative order, excluding Sample Name and Sample
    Description; Sample Description, if present, is always last." *)
Definition otherFields (fields : list string) : list string :=
  filter (fun f => f <> "Sample Name" /\ f <> "Sample Description") fields.

Definition columnOrder (fields : list string) : list string :=
  (if bool_decide ("Sample Name" ∈ fields) then ["Sample Name"] else [])
  ++ ["Operator"; "Timestamp"]
  ++ otherFields fields
  ++ (if bool_decide ("Sample Description" ∈ fields) then ["Sample Description"] else []).

(** A cell that is "empty or whitespace-only"; a missing cell is empty. *)
Definition blankCell (row : Row) (field : string) : bool :=
  match row !! field with
  | Some v => JS.blank v
  | None => true
  end.

(** "every schema field (excluding Operator/Timestamp, which do not count
    toward emptiness) is empty or whitespace-only" *)
Definition excluded (fields : list string) (row : Row) : bool :=
  forallb (fun f => String.eqb f "Operator" || String.eqb f "Timestamp"
                    || blankCell row f) fields.

(** "the ordered sequence of rows with the transient identifier stripped
    and any row excluded where every schema field is empty" *)
Definition cleanedSnapshot (fields : list string) (rows : list Row) : list Row :=
  map (delete "id") (filter (fun row => excluded fields row = false) rows).

(** The number N of lines of a text that are not entirely white space. *)
Definition nonBlankLines (text : string) : nat :=
  length (filter (fun line => JS.blank line = false) (JS.split text JS.LF)).

End Spec.

(** ** Concrete sessions used to exercise the statements *)

Module Scenario.

Definition ada : UserInfo.t :=
  {| UserInfo.name := "Ada";
     UserInfo.email := "ada@lab.org";
     UserInfo.orcid := "0000-0001";
     UserInfo.projects := ["PV"] |}.

Definition schemaA : list string := ["Sample Name"; "Concentration"].

(** The text of scenario A: two lines, a tab inside each. *)
Definition textA : string :=
  "Alpha" +:+ String JS.TAB "2024-01-01"
  +:+ String JS.LF ("Beta" +:+ String JS.TAB "2024-01-02").

(** The rows scenario A announces. *)
Definition announcedA (operatorName : string) : list Row :=
  [ <["Sample Name" := "Alpha"]> (<["Operator" := operatorName]>
      (<["Timestamp" := "2024-01-01"]> (<["Concentration" := ""]> ∅)));
    <["Sample Name" := "Beta"]> (<["Operator" := operatorName]>
      (<["Timestamp" := "2024-01-02"]> (<["Concentration" := ""]> ∅))) ].

(** The rows the paste handler builds for scenario A, identifiers aside. *)
Definition pastedA : list Row :=
  [ <["Sample Name" := "Alpha"]> (<["Operator" := "2024-01-01"]>
      (<["Timestamp" := ""]> (<["Concentration" := ""]> ∅)));
    <["Sample Name" := "Beta"]> (<["Operator" := "2024-01-02"]>
      (<["Timestamp" := ""]> (<["Concentration" := ""]> ∅))) ].

Definition populatedRow : Row :=
  <["id" := "row-1"]> (<["Sample Name" := "S1"]> (<["Operator" := "Ada"]>
    (<["Timestamp" := "2024-05-05"]> (<["Concentration" := "0.5"]> ∅)))).

(** Only Operator and Timestamp are filled in. *)
Definition operatorOnlyRow : Row :=
  <["id" := "row-0"]> (<["Sample Name" := "  "]> (<["Operator" := "Ada"]>
    (<["Timestamp" := "2024-05-05"]> (<["Concentration" := ""]> ∅)))).

Definition notFound : Resolution.t :=
  {| Resolution.status := "not_found";
     Resolution.batch_id := None;
     Resolution.input := Some "B-404";
     Resolution.matches := [] |}.

Definition twoMatches : Resolution.t :=
  {| Resolution.status := "multiple_matches";
     Resolution.batch_id := None;
     Resolution.input := Some "B-17";
     Resolution.matches :=
       [ {| Match.unique_id := "u-1"; Match.sample_name := "B-17";
            Match.description := None |};
         {| Match.unique_id := "u-2"; Match.sample_name := "B-17";
            Match.description := Some "second" |} ] |}.

Definition accepted : UploadResponse.t :=
  {| UploadResponse.success := true;
     UploadResponse.message := Some "ok";
     UploadResponse.summary := None |}.

(** A service that knows no batch and accepts every upload. *)
Definition emptyService : Backend :=
  {| resolve_reply := fun _ _ _ => Returned notFound;
     upload_reply := fun _ => Returned accepted;
     create_reply := fun _ =>
       Returned {| CreateResponse.success := true;
                   CreateResponse.unique_id := Some "u-9";
                   CreateResponse.message := None |} |}.

Definition form404 : MainForm.State :=
  {| MainForm.synthesisFields := {[ "Solid Precursor" := schemaA ]};
     MainForm.selectedProject := "PV";
     MainForm.selectedSynthesisType := "Solid Precursor";
     MainForm.batchId := "B-404";
     MainForm.tableData := [delete "id" populatedRow];
     MainForm.loading := false;
     MainForm.error := "" |}.

(** Nothing selected, nothing typed, nothing in the table. *)
Definition formBlank : MainForm.State :=
  {| MainForm.synthesisFields := ∅;
     MainForm.selectedProject := "";
     MainForm.selectedSynthesisType := "";
     MainForm.batchId := "";
     MainForm.tableData := [];
     MainForm.loading := false;
     MainForm.error := "" |}.

Definition pending404 : Pending.t := MainForm.pending form404.

Definition loggedIn : App.State :=
  {| App.currentView := App.main;
     App.userInfo := Some ada;
     App.sessionToken := Some "t";
     App.batchResolution := None;
     App.pendingUploadData := None;
     App.summaryMessage := Some "";
     App.summaryDetails := None;
     App.alerts := [] |}.

(** The session paused on the answer "not found". *)
Definition paused404 : App.State :=
  App.handleShowBatchResolution notFound pending404 loggedIn.

(** The selection panel holding an identifier that is not on the list. *)
Definition strayChoice : BatchResolution.State :=
  {| BatchResolution.selectedBatch := "u-3";
     BatchResolution.batchName := "";
     BatchResolution.batchId := "B-17";
     BatchResolution.batchDescription := "";
     BatchResolution.loading := false;
     BatchResolution.error := "" |}.

(** The same form with spaces typed into the batch box. *)
Definition formSpaces : MainForm.State :=
  {| MainForm.synthesisFields := {[ "Solid Precursor" := schemaA ]};
     MainForm.selectedProject := "PV";
     MainForm.selectedSynthesisType := "Solid Precursor";
     MainForm.batchId := "  ";
     MainForm.tableData := [delete "id" populatedRow];
     MainForm.loading := false;
     MainForm.error := "" |}.

Definition resolved7 : Resolution.t :=
  {| Resolution.status := "resolved";
     Resolution.batch_id := Some "u-7";
     Resolution.input := None;
     Resolution.matches := [] |}.

(** A service that knows every batch as u-7. *)
Definition knowingService : Backend :=
  {| resolve_reply := fun _ _ _ => Returned resolved7;
     upload_reply := fun _ => Returned accepted;
     create_reply := create_reply emptyService |}.

Definition timeout : Err.t :=
  {| Err.detail := None; Err.message := "timeout of 0ms exceeded" |}.

(** A service whose resolver cannot be reached. *)
Definition downService : Backend :=
  {| resolve_reply := fun _ _ _ => Threw timeout;
     upload_reply := fun _ => Returned accepted;
     create_reply := create_reply emptyService |}.

(** The session paused on two candidates. *)
Definition paused17 : App.State :=
  App.handleShowBatchResolution twoMatches pending404 loggedIn.

(** The selection panel with the second candidate chosen. *)
Definition secondChoice : BatchResolution.State :=
  {| BatchResolution.selectedBatch := "u-2";
     BatchResolution.batchName := "";
     BatchResolution.batchId := "B-17";
     BatchResolution.batchDescription := "";
     BatchResolution.loading := false;
     BatchResolution.error := "" |}.


(** The creation panel filled in for the batch that was not found. *)
Definition newBatch : BatchResolution.State :=
  {| BatchResolution.selectedBatch := "";
     BatchResolution.batchName := "Spring batch";
     BatchResolution.batchId := "B-404";
     BatchResolution.batchDescription := "";
     BatchResolution.loading := false;
     BatchResolution.error := "" |}.

End Scenario.

(** * Properties *)

Import DataTable.

(** Closing a decidable statement about concrete data by evaluation. *)
Ltac decided := refine (bool_decide_unpack _ _); vm_compute; exact I.

(** ** Strings *)

Lemma trimEnd_keeps_ink (c : ascii) (r : string) :
  JS.is_ws c = false -> JS.truthy (JS.trimEnd (String c r)) = true.
Proof.
  intros Hc. simpl. destruct (JS.trimEnd r); [rewrite Hc|]; reflexivity.
Qed.

Lemma trimStart_head (s : string) :
  match JS.trimStart s with
  | EmptyString => JS.blank s = true
  | String c _ => JS.is_ws c = false /\ JS.blank s = false
  end.
Proof.
  induction s as [|c r IH]; simpl; [reflexivity|].
  destruct (JS.is_ws c) eqn:Hc; simpl; [exact IH | split; [exact Hc | reflexivity]].
Qed.

(** [row.trim()] is truthy exactly on the lines that carry ink. *)
Lemma trim_truthy (s : string) : JS.truthy (JS.trim s) = negb (JS.blank s).
Proof.
  unfold JS.trim. pose proof (trimStart_head s) as H.
  destruct (JS.trimStart s) as [|c r].
  - rewrite H. reflexivity.
  - destruct H as [Hc Hb]. rewrite Hb. now apply trimEnd_keeps_ink.
Qed.

Lemma truthy_eqb_empty (s : string) : negb (String.eqb s "") = JS.truthy s.
Proof. destruct s; reflexivity. Qed.

Lemma blank_truthy (v : string) : JS.blank v = false -> JS.truthy v = true.
Proof. destruct v; [discriminate | reflexivity]. Qed.

(** ** Column order *)

Lemma find_by_name (n : string) (fields : list string) :
  JS.find (fun f => String.eqb f n) fields
  = if bool_decide (n ∈ fields) then Some n else None.
Proof.
  unfold JS.find. induction fields as [|f fs IH]; simpl.
  - reflexivity.
  - destruct (String.eqb_spec f n) as [->|Hne].
    + rewrite bool_decide_eq_true_2; [reflexivity | apply elem_of_cons; now left].
    + rewrite IH. apply (f_equal (fun b : bool => if b then Some n else None)).
      apply bool_decide_ext. rewrite elem_of_cons. intuition congruence.
Qed.

Lemma isOther_spec (f : string) :
  isOther f = true <-> f <> "Sample Name" /\ f <> "Sample Description".
Proof.
  unfold isOther, isSampleName, isSampleDescription.
  destruct (String.eqb_spec f "Sample Name"), (String.eqb_spec f "Sample Description");
    simpl; intuition congruence.
Qed.

Lemma otherFields_spec (fields : list string) :
  filter (fun f => isOther f = true) fields = Spec.otherFields fields.
Proof. apply list_filter_iff. intros f. apply isOther_spec. Qed.

(** The order built by the paste handler is the order of the specification. *)
Lemma columnOrder_spec (fields : list string) :
  DataTable.columnOrder fields = Spec.columnOrder fields.
Proof.
  unfold DataTable.columnOrder, Spec.columnOrder, isSampleName, isSampleDescription.
  rewrite !find_by_name, otherFields_spec.
  do 2 case_bool_decide; reflexivity.
Qed.

(** The grid shows, for a schema with at least one field, the same keys. *)
Lemma columns_keys (f : string) (fs : list string) :
  map key (columns (f :: fs)) = DataTable.columnOrder (f :: fs).
Proof.
  unfold columns, DataTable.columnOrder, isSampleName, isSampleDescription.
  rewrite !find_by_name.
  rewrite !map_app, map_map. simpl.
  rewrite map_id.
  do 2 case_bool_decide; reflexivity.
Qed.

Lemma others_nil_inv (fields : list string) :
  Spec.otherFields fields = [] ->
  "Sample Name" ∉ fields -> "Sample Description" ∉ fields -> fields = [].
Proof.
  destruct fields as [|f fs]; [reflexivity|].
  intros Hnil Hn Hd. exfalso.
  apply (filter_nil_not_elem_of _ _ f) in Hnil.
  - apply Hnil. apply elem_of_cons. now left.
  - split; intros ->; [apply Hn | apply Hd]; apply elem_of_cons; now left.
Qed.

(** The order depends on the schema only through the presence of the two
    anchors and the sequence of the other fields. *)
Lemma columnOrder_determined (fields fields' : list string) :
  ("Sample Name" ∈ fields <-> "Sample Name" ∈ fields') ->
  ("Sample Description" ∈ fields <-> "Sample Description" ∈ fields') ->
  Spec.otherFields fields = Spec.otherFields fields' ->
  Spec.columnOrder fields = Spec.columnOrder fields'.
Proof.
  intros Hn Hd Ho. unfold Spec.columnOrder. rewrite Ho.
  rewrite (bool_decide_ext _ _ Hn), (bool_decide_ext _ _ Hd). reflexivity.
Qed.

Lemma columns_determined (fields fields' : list string) :
  ("Sample Name" ∈ fields <-> "Sample Name" ∈ fields') ->
  ("Sample Description" ∈ fields <-> "Sample Description" ∈ fields') ->
  Spec.otherFields fields = Spec.otherFields fields' ->
  map key (columns fields) = map key (columns fields').
Proof.
  intros Hn Hd Ho.
  destruct fields as [|f fs], fields' as [|g gs]; [reflexivity| | |].
  - symmetry in Ho. apply others_nil_inv in Ho; [discriminate | |];
      rewrite <- ?Hn, <- ?Hd; apply not_elem_of_nil.
  - apply others_nil_inv in Ho; [discriminate | |];
      rewrite ?Hn, ?Hd; apply not_elem_of_nil.
  - rewrite !columns_keys, !columnOrder_spec. now apply columnOrder_determined.
Qed.

(** C4 (as amended): for a schema with at least one field the grid's
    columns and the paste handler's mapping both follow the order Sample
    Name (if present), Operator, Timestamp, the other fields in schema
    order, Sample Description (if present); for the empty schema the grid
    has no column at all.  Either order depends only on which anchors are
    present and on the sequence of the other fields. *)
Theorem column_order_fixed (fields : list string) :
  map key (columns fields)
  = match fields with
    | [] => []
    | _ :: _ => Spec.columnOrder fields
    end
  /\ DataTable.columnOrder fields = Spec.columnOrder fields
  /\ (fields <> [] -> map key (columns fields) = DataTable.columnOrder fields)
  /\ forall fields' : list string,
       ("Sample Name" ∈ fields <-> "Sample Name" ∈ fields') ->
       ("Sample Description" ∈ fields <-> "Sample Description" ∈ fields') ->
       Spec.otherFields fields = Spec.otherFields fields' ->
       map key (columns fields) = map key (columns fields')
       /\ DataTable.columnOrder fields = DataTable.columnOrder fields'.
Proof.
  repeat split.
  - destruct fields as [|f fs]; [reflexivity|].
    now rewrite columns_keys, columnOrder_spec.
  - apply columnOrder_spec.
  - destruct fields as [|f fs]; [congruence | intros _; apply columns_keys].
  - now apply columns_determined.
  - rewrite !columnOrder_spec. now apply columnOrder_determined.
Qed.

(** C4 (as stated) fails on the empty schema: the grid gets no Operator and
    no Timestamp column, and its columns differ from the paste mapping. *)
Lemma column_order_empty_schema :
  map key (columns []) <> Spec.columnOrder []
  /\ map key (columns []) <> DataTable.columnOrder [].
Proof. split; vm_compute; discriminate. Qed.

(** ** Paste ingestion *)

Lemma pastedRows_length (text : string) :
  length (pastedRows text) = Spec.nonBlankLines text.
Proof.
  unfold pastedRows, Spec.nonBlankLines. f_equal.
  apply list_filter_iff. intros line. rewrite trim_truthy.
  destruct (JS.blank line); simpl; intuition congruence.
Qed.

Lemma newRows_length (fields : list string) (operatorName : string) (base : nat)
    (parsedRows : list (list string)) :
  length (newRows fields operatorName base parsedRows) = length parsedRows.
Proof. unfold newRows. apply length_imap. Qed.

(** What [handlePaste] leaves in [rows], whichever branch it takes. *)
Lemma handlePaste_rows (fields : list string) (operatorName : string)
    (rows : list Row) (text : string) :
  rows_after (paste (handlePaste fields operatorName rows text))
  = rows ++ newRows fields operatorName (length rows) (map parseRow (pastedRows text)).
Proof.
  unfold handlePaste. destruct (pastedRows text) as [|l ls]; simpl.
  - now rewrite app_nil_r.
  - reflexivity.
Qed.

(** C7: a paste appends one row per line that is not entirely white
    space, after the rows already in the table, which stay as they are;
    an empty text changes nothing, notifies nobody and raises nothing. *)
Theorem paste_appends_one_row_per_line (fields : list string)
    (operatorName : string) (rows : list Row) (text : string) :
  (exists added : list Row,
      rows_after (paste (handlePaste fields operatorName rows text)) = rows ++ added
      /\ length added = Spec.nonBlankLines text)
  /\ take (length rows) (rows_after (paste (handlePaste fields operatorName rows text)))
     = rows
  /\ length (rows_after (paste (handlePaste fields operatorName rows text)))
     = length rows + Spec.nonBlankLines text
  /\ handlePaste fields operatorName rows ""
     = {| paste := {| rows_after := rows; onChange_calls := [] |};
          defaultPrevented := false |}.
Proof.
  rewrite handlePaste_rows. repeat split.
  - eexists. split; [reflexivity|].
    now rewrite newRows_length, length_map, pastedRows_length.
  - apply take_app_length.
  - now rewrite length_app, newRows_length, length_map, pastedRows_length.
Qed.

(** C5 (as amended): under the schema [Sample Name, Concentration] the two
    lines of scenario A become two rows in which the second cell lands in
    Operator, the column at position 1, and Timestamp stays empty; the rows
    are numbered row-0 and row-1 and are reported to the form without their
    identifiers. *)
Theorem scenarioA_paste (operatorName : string) :
  handlePaste Scenario.schemaA operatorName [] Scenario.textA
  = {| paste :=
         {| rows_after :=
              [ <["id" := "row-0"]> (<["Sample Name" := "Alpha"]>
                  (<["Operator" := "2024-01-01"]> (<["Timestamp" := ""]>
                     (<["Concentration" := ""]> ∅))));
                <["id" := "row-1"]> (<["Sample Name" := "Beta"]>
                  (<["Operator" := "2024-01-02"]> (<["Timestamp" := ""]>
                     (<["Concentration" := ""]> ∅)))) ];
            onChange_calls := [Scenario.pastedA] |};
       defaultPrevented := true |}.
Proof. vm_compute. reflexivity. Qed.

(** C5 (as stated) fails: the rows announced by scenario A, with the date
    under Timestamp and the operator's name under Operator, are not the
    rows the paste produces. *)
Lemma scenarioA_announced_rows_differ :
  map stripId
    (rows_after (paste (handlePaste Scenario.schemaA "Ada" [] Scenario.textA)))
  <> Scenario.announcedA "Ada"
  /\ onChange_calls (paste (handlePaste Scenario.schemaA "Ada" [] Scenario.textA))
     <> [Scenario.announcedA "Ada"].
Proof.
  split; intros H.
  - apply (f_equal (fun rows : list Row =>
                      (rows !! 0%nat) ≫= (fun row : Row => row !! "Timestamp"))) in H.
    vm_compute in H. discriminate H.
  - apply (f_equal (fun calls : list (list Row) =>
                      match calls with
                      | (row :: _) :: _ => row !! "Timestamp"
                      | _ => None
                      end)) in H.
    vm_compute in H. discriminate H.
Qed.

(** ** Cleaned snapshot *)

Lemma cellFilled_spec (row : Row) (field : string) :
  cellFilled row field = negb (Spec.blankCell row field).
Proof.
  unfold cellFilled, Spec.blankCell. destruct (row !! field) as [v|]; [|reflexivity].
  rewrite truthy_eqb_empty, trim_truthy.
  destruct (JS.blank v) eqn:Hb; simpl.
  - apply andb_false_r.
  - now rewrite (blank_truthy v Hb).
Qed.

(** A row passes the filter unless every schema field is blank. *)
Lemma rowNonEmpty_spec (fields : list string) (row : Row) :
  rowNonEmpty fields row = negb (forallb (Spec.blankCell row) fields).
Proof.
  unfold rowNonEmpty, JS.some. induction fields as [|f fs IH]; simpl; [reflexivity|].
  rewrite IH, cellFilled_spec. now destruct (Spec.blankCell row f).
Qed.

Lemma excluded_no_anchor (fields : list string) (row : Row) :
  "Operator" ∉ fields -> "Timestamp" ∉ fields ->
  Spec.excluded fields row = forallb (Spec.blankCell row) fields.
Proof.
  unfold Spec.excluded. induction fields as [|f fs IH]; simpl; [reflexivity|].
  intros [Ho Ho']%not_elem_of_cons [Ht Ht']%not_elem_of_cons.
  rewrite IH by assumption.
  destruct (String.eqb_spec f "Operator"); [congruence|].
  destruct (String.eqb_spec f "Timestamp"); [congruence|]. reflexivity.
Qed.

Lemma cleanedRows_spec (fields : list string) (rows : list Row) :
  "Operator" ∉ fields -> "Timestamp" ∉ fields ->
  cleanedRows fields rows = Spec.cleanedSnapshot fields rows.
Proof.
  intros Ho Ht. unfold cleanedRows, Spec.cleanedSnapshot, stripId. f_equal.
  apply list_filter_iff. intros row.
  rewrite rowNonEmpty_spec, excluded_no_anchor by assumption.
  destruct (forallb _ _); simpl; intuition congruence.
Qed.

(** C6: what [handleRowsChange] passes on is the table in order, without
    the [id] key, minus exactly the rows whose schema fields are all empty
    or white space; Operator and Timestamp, which are not schema fields,
    never keep a row. *)
Theorem cleaned_snapshot_correct (fields : list string) (rows : list Row) :
  "Operator" ∉ fields -> "Timestamp" ∉ fields ->
  onChange_calls (handleRowsChange fields rows) = [Spec.cleanedSnapshot fields rows]
  /\ (forall row : Row,
        rowNonEmpty fields row = false
        <-> (forall f : string, f ∈ fields -> Spec.blankCell row f = true))
  /\ (forall (row : Row) (operator timestamp : string),
        (forall f : string, f ∈ fields -> Spec.blankCell row f = true) ->
        cleanedRows fields [<["Operator" := operator]> (<["Timestamp" := timestamp]> row)]
        = []).
Proof.
  intros Ho Ht.
  assert (Hex : forall row : Row,
             rowNonEmpty fields row = false
             <-> (forall f : string, f ∈ fields -> Spec.blankCell row f = true)).
  { intros row. rewrite rowNonEmpty_spec, negb_false_iff, forallb_forall.
    split; intros H f Hf; apply H; now apply list_elem_of_In. }
  split; [|split].
  - simpl. now rewrite cleanedRows_spec.
  - exact Hex.
  - intros row o t Hblank. unfold cleanedRows.
    rewrite filter_cons_False; [reflexivity|].
    rewrite not_true_iff_false. apply Hex. intros f Hf.
    unfold Spec.blankCell.
    rewrite !lookup_insert_ne by (intros <-; contradiction).
    now apply Hblank.
Qed.

Lemma cleaned_snapshot_correct_witness :
  onChange_calls
    (handleRowsChange Scenario.schemaA [Scenario.operatorOnlyRow; Scenario.populatedRow])
  = [Spec.cleanedSnapshot Scenario.schemaA
       [Scenario.operatorOnlyRow; Scenario.populatedRow]]
  /\ Spec.cleanedSnapshot Scenario.schemaA
       [Scenario.operatorOnlyRow; Scenario.populatedRow]
     = [delete "id" Scenario.populatedRow].
Proof.
  split.
  - apply (cleaned_snapshot_correct Scenario.schemaA
             [Scenario.operatorOnlyRow; Scenario.populatedRow]);
      vm_compute; intros H; repeat (inversion H as [|? ? ? H']; subst; clear H; rename H' into H).
  - vm_compute. reflexivity.
Defined.

(** *** The form's copy stays the cleaned table *)

Lemma blanked_lookup (fields : list string) (base : Row) (f : string) :
  fold_left (fun row field => <[field := ""]> row) fields base !! f
  = if bool_decide (f ∈ fields) then Some "" else base !! f.
Proof.
  revert base. induction fields as [|g gs IH]; intros base; simpl; [reflexivity|].
  rewrite IH. destruct (decide (f = g)) as [->|Hne].
  - rewrite lookup_insert_eq.
    rewrite (bool_decide_eq_true_2 (g ∈ g :: gs)) by (apply elem_of_cons; now left).
    now case_bool_decide.
  - rewrite lookup_insert_ne by congruence.
    apply (f_equal (fun b : bool => if b then Some "" else base !! f)).
    apply bool_decide_ext. rewrite elem_of_cons. intuition congruence.
Qed.

Lemma blanked_excluded (fields : list string) (base : Row) :
  rowNonEmpty fields (fold_left (fun row field => <[field := ""]> row) fields base)
  = false.
Proof.
  rewrite rowNonEmpty_spec, negb_false_iff, forallb_forall. intros f Hf.
  unfold Spec.blankCell. rewrite blanked_lookup.
  rewrite bool_decide_eq_true_2 by now apply list_elem_of_In. reflexivity.
Qed.

Lemma cleanedRows_app (fields : list string) (rows rows' : list Row) :
  cleanedRows fields (rows ++ rows')
  = cleanedRows fields rows ++ cleanedRows fields rows'.
Proof. unfold cleanedRows. now rewrite filter_app, map_app. Qed.

(** X10: whatever the operator does to the grid (edit, paste, add, remove,
    clear), the rows held by the form for submission are the cleaned rows
    of the grid, also after the handlers that do not notify the form. *)
Lemma tableData_in_sync (fields : list string) (operatorName : string)
    (rows tableData : list Row) :
  tableData = cleanedRows fields rows ->
  (forall edited : list Row,
      tableDataAfter tableData (handleRowsChange fields edited)
      = cleanedRows fields (rows_after (handleRowsChange fields edited)))
  /\ (forall text : string,
        tableDataAfter tableData (paste (handlePaste fields operatorName rows text))
        = cleanedRows fields
            (rows_after (paste (handlePaste fields operatorName rows text))))
  /\ tableDataAfter tableData (handleAddRow fields operatorName rows)
     = cleanedRows fields (rows_after (handleAddRow fields operatorName rows))
  /\ tableDataAfter tableData (handleRemoveRow fields rows)
     = cleanedRows fields (rows_after (handleRemoveRow fields rows))
  /\ tableDataAfter tableData (handleClearAll fields operatorName rows)
     = cleanedRows fields (rows_after (handleClearAll fields operatorName rows)).
Proof.
  intros ->. repeat split.
  - intros text. unfold handlePaste.
    destruct (pastedRows text); reflexivity.
  - unfold handleAddRow, tableDataAfter. cbn [onChange_calls rows_after List.last].
    rewrite cleanedRows_app. unfold cleanedRows at 3, blankRow.
    rewrite filter_cons_False; [now rewrite app_nil_r|].
    rewrite blanked_excluded. discriminate.
  - unfold handleRemoveRow. destruct (Nat.ltb 0 (length rows)); reflexivity.
  - unfold handleClearAll, tableDataAfter. cbn [onChange_calls rows_after List.last].
    induction rows as [|row rows IH]; [reflexivity|].
    cbn [map]. unfold cleanedRows. rewrite filter_cons_False; [exact IH|].
    rewrite blanked_excluded. discriminate.
Qed.

(** ** Removing from an empty table *)

(** C10: with no row in the table, "Remove Last Row" leaves the table
    empty and calls [onChange] not at all; the button is disabled too. *)
Theorem remove_last_on_empty_table (fields : list string) :
  handleRemoveRow fields [] = {| rows_after := []; onChange_calls := [] |}
  /\ removeButtonDisabled [] = true.
Proof. split; reflexivity. Qed.

(** ** Submission *)

Lemma run_bind {A B} (srv : Backend) (m : Net A) (f : A -> Net B) :
  run srv (bind m f)
  = (fst (run srv m) ++ fst (run srv (f (snd (run srv m)))),
     snd (run srv (f (snd (run srv m))))).
Proof.
  induction m as [a|b o p k IH|d k IH|d k IH]; simpl.
  - now destruct (run srv (f a)).
  - rewrite IH. now destruct (run srv (k _)).
  - rewrite IH. now destruct (run srv (k _)).
  - rewrite IH. now destruct (run srv (k _)).
Qed.

Lemma truthy_nonempty (s : string) : s <> "" -> JS.truthy s = true.
Proof. destruct s; [congruence | reflexivity]. Qed.

Lemma length_nonempty {A} (l : list A) : l <> [] -> Nat.eqb (length l) 0 = false.
Proof. destruct l; [congruence | reflexivity]. Qed.

(** Past the three checks, [handleUpload] turns to the batch text. *)
Lemma handleUpload_validated (user : UserInfo.t) (form : MainForm.State) :
  MainForm.selectedProject form <> "" ->
  MainForm.selectedSynthesisType form <> "" ->
  MainForm.tableData form <> [] ->
  MainForm.handleUpload user form
  = let st := MainForm.setLoading true (MainForm.setError "" form) in
    if JS.truthy (JS.trim (MainForm.batchId form)) then
      resolveBatch (JS.trim (MainForm.batchId form)) (UserInfo.orcid user)
        (MainForm.selectedProject form)
        (fun reply =>
           match reply with
           | Returned resolution =>
               if MainForm.needsDecision resolution then
                 Ret (MainForm.setLoading false st,
                      [MainForm.onShowBatchResolution resolution (MainForm.pending st)])
               else MainForm.performUpload user (Resolution.batch_id resolution) st
           | Threw err =>
               Ret (MainForm.setLoading false
                      (MainForm.setError (JS.opt_or_else (Err.detail err)
                                            "An error occurred during upload") st), [])
           end)
    else MainForm.performUpload user None st.
Proof.
  intros Hp Ht Hd. unfold MainForm.handleUpload. cbn [MainForm.setError
    MainForm.selectedProject MainForm.selectedSynthesisType MainForm.tableData
    MainForm.batchId].
  rewrite (truthy_nonempty _ Hp), (truthy_nonempty _ Ht), (length_nonempty _ Hd).
  reflexivity.
Qed.

(** A batch text with ink in it is sent to the resolver first. *)
Lemma handleUpload_resolves_first (srv : Backend) (user : UserInfo.t)
    (form : MainForm.State) :
  MainForm.selectedProject form <> "" ->
  MainForm.selectedSynthesisType form <> "" ->
  MainForm.tableData form <> [] ->
  JS.blank (MainForm.batchId form) = false ->
  exists rest,
    fst (run srv (MainForm.handleUpload user form))
    = Resolve_call (JS.trim (MainForm.batchId form)) (UserInfo.orcid user)
        (MainForm.selectedProject form)
        (resolve_reply srv (JS.trim (MainForm.batchId form)) (UserInfo.orcid user)
           (MainForm.selectedProject form))
      :: rest.
Proof.
  intros Hp Ht Hd Hb. rewrite handleUpload_validated by assumption.
  cbv zeta. rewrite trim_truthy, Hb. simpl.
  destruct (run srv _) as [evs res]. now exists evs.
Qed.

Lemma needsDecision_spec (resolution : Resolution.t) :
  MainForm.needsDecision resolution = true
  <-> Resolution.status resolution = "not_found"
      \/ Resolution.status resolution = "multiple_matches".
Proof.
  unfold MainForm.needsDecision. rewrite orb_true_iff, !String.eqb_eq. reflexivity.
Qed.

(** C8: with no project, or no synthesis type, or no cleaned row,
    [handleUpload] stops at the first failing check with that check's own
    message and sends nothing: no request is issued, no callback is made,
    and the rest of the form is as it was. *)
Theorem validation_fails_fast (srv : Backend) (user : UserInfo.t)
    (form : MainForm.State) :
  MainForm.selectedProject form = ""
  \/ MainForm.selectedSynthesisType form = ""
  \/ MainForm.tableData form = [] ->
  run srv (MainForm.handleUpload user form)
  = ([], (MainForm.setError
            (if decide (MainForm.selectedProject form = "")
             then "Please select a project"
             else if decide (MainForm.selectedSynthesisType form = "")
                  then "Please select a synthesis type"
                  else "Please enter at least one row of data") form,
          []))
  /\ (forall app : App.State, fst (run srv (App.clickUpload form app)) = [])
  /\ "Please select a project" <> "Please select a synthesis type"
  /\ "Please select a project" <> "Please enter at least one row of data"
  /\ "Please select a synthesis type" <> "Please enter at least one row of data".
Proof.
  intros Hbad.
  assert (Hrun : run srv (MainForm.handleUpload user form)
                 = ([], (MainForm.setError
                           (if decide (MainForm.selectedProject form = "")
                            then "Please select a project"
                            else if decide (MainForm.selectedSynthesisType form = "")
                                 then "Please select a synthesis type"
                                 else "Please enter at least one row of data") form,
                         []))).
  { unfold MainForm.handleUpload.
    cbn [MainForm.setError MainForm.selectedProject MainForm.selectedSynthesisType
         MainForm.tableData MainForm.batchId].
    destruct (decide (MainForm.selectedProject form = "")) as [->|Hp]; [reflexivity|].
    rewrite (truthy_nonempty _ Hp). cbn [negb].
    destruct (decide (MainForm.selectedSynthesisType form = "")) as [->|Ht]; [reflexivity|].
    rewrite (truthy_nonempty _ Ht). cbn [negb].
    destruct Hbad as [H|[H|H]]; [congruence | congruence |].
    rewrite H. reflexivity. }
  split; [exact Hrun|]. split; [|repeat split; discriminate].
  intros app. unfold App.clickUpload.
  destruct (App.currentView app); try reflexivity.
  destruct (App.userInfo app) as [user'|]; [|reflexivity].
  rewrite run_bind. cbn [fst snd run].
  assert (Hrun' : fst (run srv (MainForm.handleUpload user' form)) = []).
  { clear Hrun. unfold MainForm.handleUpload.
    cbn [MainForm.setError MainForm.selectedProject MainForm.selectedSynthesisType
         MainForm.tableData MainForm.batchId].
    destruct (MainForm.selectedProject form) eqn:Ep; [reflexivity|]. cbn [JS.truthy negb].
    destruct (MainForm.selectedSynthesisType form) eqn:Et; [reflexivity|]. cbn [JS.truthy negb].
    destruct Hbad as [H|[H|H]]; [discriminate | discriminate |].
    rewrite H. reflexivity. }
  rewrite Hrun'. reflexivity.
Qed.

Lemma validation_fails_fast_witness :
  run Scenario.emptyService (MainForm.handleUpload Scenario.ada Scenario.formBlank)
  = ([], (MainForm.setError "Please select a project" Scenario.formBlank, [])).
Proof.
  apply (validation_fails_fast Scenario.emptyService Scenario.ada Scenario.formBlank).
  left. reflexivity.
Defined.

(** C3 (as amended): when a validated submission whose batch text is not
    blank gets "not found" or "multiple matches" back from the resolver,
    called with the trimmed text, that request is the only one of the
    invocation (nothing is uploaded) and the form hands the resolution to
    its caller together with the selected project, the selected synthesis
    type and the cleaned rows; [App] then shows the resolution view and
    holds exactly that resolution and that payload for the resumption. *)
Theorem ambiguous_resolution_suspends (srv : Backend) (user : UserInfo.t)
    (form : MainForm.State) (resolution : Resolution.t) :
  MainForm.selectedProject form <> "" ->
  MainForm.selectedSynthesisType form <> "" ->
  MainForm.tableData form <> [] ->
  JS.blank (MainForm.batchId form) = false ->
  resolve_reply srv (JS.trim (MainForm.batchId form)) (UserInfo.orcid user)
    (MainForm.selectedProject form) = Returned resolution ->
  Resolution.status resolution = "not_found"
  \/ Resolution.status resolution = "multiple_matches" ->
  let uploadData :=
    {| Pending.project := MainForm.selectedProject form;
       Pending.synthesisType := MainForm.selectedSynthesisType form;
       Pending.data := MainForm.tableData form |} in
  let resolving :=
    Resolve_call (JS.trim (MainForm.batchId form)) (UserInfo.orcid user)
      (MainForm.selectedProject form) (Returned resolution) in
  run srv (MainForm.handleUpload user form)
  = ([resolving],
     (MainForm.setLoading false (MainForm.setError "" form),
      [MainForm.onShowBatchResolution resolution uploadData]))
  /\ filter (fun e => is_upload e = true)
       (fst (run srv (MainForm.handleUpload user form))) = []
  /\ forall app : App.State,
       App.currentView app = App.main ->
       App.userInfo app = Some user ->
       let after := snd (snd (run srv (App.clickUpload form app))) in
       fst (run srv (App.clickUpload form app)) = [resolving]
       /\ MainForm.tableData (fst (snd (run srv (App.clickUpload form app))))
          = MainForm.tableData form
       /\ App.currentView after = App.batch_resolution
       /\ App.batchResolution after = Some resolution
       /\ App.pendingUploadData after = Some uploadData
       /\ App.userInfo after = Some user
       /\ App.alerts after = App.alerts app.
Proof.
  intros Hp Ht Hd Hb Hres Hst uploadData resolving.
  apply needsDecision_spec in Hst.
  assert (Hrun : run srv (MainForm.handleUpload user form)
                 = ([resolving],
                    (MainForm.setLoading false (MainForm.setError "" form),
                     [MainForm.onShowBatchResolution resolution uploadData]))).
  { rewrite handleUpload_validated by assumption. cbv zeta.
    rewrite trim_truthy, Hb. cbn [negb run]. rewrite Hres, Hst. reflexivity. }
  split; [exact Hrun|]. split; [now rewrite Hrun|].
  intros app Hview Huser. cbv zeta. unfold App.clickUpload. rewrite Hview, Huser.
  rewrite run_bind, Hrun. cbn. repeat split. exact Huser.
Qed.

Lemma ambiguous_resolution_suspends_witness :
  run Scenario.emptyService (MainForm.handleUpload Scenario.ada Scenario.form404)
  = ([Resolve_call "B-404" "0000-0001" "PV" (Returned Scenario.notFound)],
     (MainForm.setLoading false (MainForm.setError "" Scenario.form404),
      [MainForm.onShowBatchResolution Scenario.notFound Scenario.pending404])).
Proof.
  apply (ambiguous_resolution_suspends Scenario.emptyService Scenario.ada
           Scenario.form404 Scenario.notFound).
  - discriminate.
  - discriminate.
  - discriminate.
  - reflexivity.
  - reflexivity.
  - left. reflexivity.
Defined.

(** C3 (as stated) fails: with two spaces typed as batch text the form is
    valid and the text is not empty, and the service answers "not found"
    to whatever it is asked; yet the resolver is not asked, the rows are
    uploaded without a batch, and no resolution is handed to the caller. *)
Lemma spaces_as_batch_text_are_uploaded :
  MainForm.selectedProject Scenario.formSpaces <> ""
  /\ MainForm.selectedSynthesisType Scenario.formSpaces <> ""
  /\ MainForm.tableData Scenario.formSpaces <> []
  /\ MainForm.batchId Scenario.formSpaces <> ""
  /\ (forall batchId orcid project : string,
        resolve_reply Scenario.emptyService batchId orcid project
        = Returned Scenario.notFound)
  /\ Resolution.status Scenario.notFound = "not_found"
  /\ filter (fun e => is_upload e = true)
       (fst (run Scenario.emptyService
               (MainForm.handleUpload Scenario.ada Scenario.formSpaces)))
     <> []
  /\ run Scenario.emptyService (MainForm.handleUpload Scenario.ada Scenario.formSpaces)
     = ([Upload_call (MainForm.uploadData Scenario.ada None Scenario.formSpaces)
           (Returned Scenario.accepted)],
        (MainForm.setLoading false (MainForm.setError "" Scenario.formSpaces),
         [MainForm.onUploadSuccess (Some "ok") None])).
Proof.
  repeat split; try discriminate.
Qed.

(** ** Resumption after the pause *)

Lemma suspended_cancel (app : App.State) (user : UserInfo.t)
    (resolution : Resolution.t) (pendingData : Pending.t) :
  App.suspended app user resolution pendingData ->
  App.handleBatchResolutionCancel app
  = uploadSynthesisData (App.uploadData user pendingData None)
      (fun reply => Ret (App.settle reply app)).
Proof.
  intros (_ & Huser & _ & Hpend & _).
  unfold App.handleBatchResolutionCancel. now rewrite Huser, Hpend.
Qed.

(** In the suspended state the Cancel button is wired to the handler. *)
Lemma suspended_clickCancel (app : App.State) (user : UserInfo.t)
    (resolution : Resolution.t) (pendingData : Pending.t) :
  App.suspended app user resolution pendingData ->
  App.clickCancel app = App.handleBatchResolutionCancel app.
Proof.
  intros (Hview & _ & Hres & _). unfold App.clickCancel. now rewrite Hview, Hres.
Qed.

(** C1 (as amended): cancelling a suspended submission issues exactly one
    request, the upload of the pending payload with no batch, and neither
    a resolve nor a create-batch request; once the upload has settled the
    pending payload and the resolution are dropped, and the session shows
    the summary when the upload succeeded and the editable form when it
    was rejected or failed. *)
Theorem cancel_uploads_then_clears (srv : Backend) (app : App.State)
    (user : UserInfo.t) (resolution : Resolution.t) (pendingData : Pending.t) :
  App.suspended app user resolution pendingData ->
  let uploadData := App.uploadData user pendingData None in
  let after := snd (run srv (App.handleBatchResolutionCancel app)) in
  fst (run srv (App.handleBatchResolutionCancel app))
  = [Upload_call uploadData (upload_reply srv uploadData)]
  /\ App.pendingUploadData after = None
  /\ App.batchResolution after = None
  /\ App.currentView after
     = match upload_reply srv uploadData with
       | Returned response =>
           if UploadResponse.success response then App.summary else App.main
       | Threw _ => App.main
       end.
Proof.
  intros Hsusp uploadData after. subst after.
  rewrite (suspended_cancel _ _ _ _ Hsusp). cbn [run fst snd].
  fold uploadData. split; [reflexivity|].
  destruct (upload_reply srv uploadData) as [response|err]; cbn [App.settle].
  - destruct (UploadResponse.success response); repeat split.
  - repeat split.
Qed.

Lemma cancel_uploads_then_clears_witness :
  fst (run Scenario.emptyService (App.handleBatchResolutionCancel Scenario.paused404))
  = [Upload_call (App.uploadData Scenario.ada Scenario.pending404 None)
       (Returned Scenario.accepted)].
Proof.
  apply (cancel_uploads_then_clears Scenario.emptyService Scenario.paused404
           Scenario.ada Scenario.notFound Scenario.pending404).
  repeat split.
Defined.

(** C1 (as stated) fails: cancelling the session paused on "not found"
    does reach the network, and with the upload accepted the session ends
    on the summary, not on the editable form. *)
Lemma cancel_reaches_the_network :
  App.suspended Scenario.paused404 Scenario.ada Scenario.notFound Scenario.pending404
  /\ fst (run Scenario.emptyService
            (App.handleBatchResolutionCancel Scenario.paused404)) <> []
  /\ filter (fun e => is_upload e = true)
       (fst (run Scenario.emptyService
               (App.handleBatchResolutionCancel Scenario.paused404))) <> []
  /\ App.currentView
       (snd (run Scenario.emptyService
               (App.handleBatchResolutionCancel Scenario.paused404)))
     <> App.main.
Proof.
  split; [repeat split|]. repeat split; vm_compute; discriminate.
Qed.

(** C2: cancelling a submission suspended on "not found" builds the upload
    body from the logged-in user and the pending project, synthesis type
    and rows, with [batch_id] null, and calls the upload endpoint with it. *)
Theorem cancel_not_found_uploads_without_batch (app : App.State)
    (user : UserInfo.t) (resolution : Resolution.t) (pendingData : Pending.t) :
  App.suspended app user resolution pendingData ->
  Resolution.status resolution = "not_found" ->
  let uploadData :=
    {| UploadData.email := UserInfo.email user;
       UploadData.orcid := UserInfo.orcid user;
       UploadData.user_name := UserInfo.name user;
       UploadData.project := Pending.project pendingData;
       UploadData.synthesis_type := Pending.synthesisType pendingData;
       UploadData.batch_id := None;
       UploadData.data := Pending.data pendingData |} in
  (exists k, App.handleBatchResolutionCancel app = uploadSynthesisData uploadData k)
  /\ forall srv : Backend,
       exists reply rest,
         fst (run srv (App.clickCancel app)) = Upload_call uploadData reply :: rest.
Proof.
  intros Hsusp _ uploadData. split.
  - destruct Hsusp as (_ & Huser & _ & Hpend & _).
    unfold App.handleBatchResolutionCancel. rewrite Huser, Hpend.
    eexists. reflexivity.
  - intros srv.
    rewrite (suspended_clickCancel _ _ _ _ Hsusp), (suspended_cancel _ _ _ _ Hsusp).
    cbn [run fst]. eexists _, _. reflexivity.
Qed.

Lemma cancel_not_found_uploads_without_batch_witness :
  exists k,
    App.handleBatchResolutionCancel Scenario.paused404
    = uploadSynthesisData
        {| UploadData.email := "ada@lab.org";
           UploadData.orcid := "0000-0001";
           UploadData.user_name := "Ada";
           UploadData.project := "PV";
           UploadData.synthesis_type := "Solid Precursor";
           UploadData.batch_id := None;
           UploadData.data := [delete "id" Scenario.populatedRow] |} k.
Proof.
  apply (cancel_not_found_uploads_without_batch Scenario.paused404 Scenario.ada
           Scenario.notFound Scenario.pending404).
  - repeat split.
  - reflexivity.
Defined.

(** ** Selecting among several matches *)




(** A chosen candidate is passed to [onResolve] as it is. *)
Lemma chosen_candidate_resolves (resolution : Resolution.t)
    (panel : BatchResolution.State) :
  BatchResolution.selectedBatch panel <> "" ->
  BatchResolution.selectedBatch panel
    ∈ map Match.unique_id (Resolution.matches resolution) ->
  BatchResolution.handleSelectBatch resolution panel
  = (panel, [BatchResolution.onResolve (Some (BatchResolution.selectedBatch panel))]).
Proof.
  intros Hne Hin. unfold BatchResolution.handleSelectBatch, JS.find.
  rewrite (truthy_nonempty _ Hne). cbn [negb].
  induction (Resolution.matches resolution) as [|m ms IH]; simpl in *.
  - now apply elem_of_nil in Hin.
  - destruct (String.eqb_spec (Match.unique_id m) (BatchResolution.selectedBatch panel))
      as [->|Hother]; [reflexivity|].
    apply IH. apply elem_of_cons in Hin as [Heq|Hin]; [congruence | exact Hin].
Qed.

(** ** Creating a batch *)

(** X19: a name or an identifier made of white space only stops
    [handleCreateBatch] before the request: nothing is sent, nothing is
    resolved, and the panel shows an error. *)
Lemma createBatch_checked_locally (srv : Backend) (user : UserInfo.t)
    (project : option string) (panel : BatchResolution.State) :
  JS.blank (BatchResolution.batchName panel) = true
  \/ JS.blank (BatchResolution.batchId panel) = true ->
  fst (run srv (BatchResolution.handleCreateBatch user project panel)) = []
  /\ snd (snd (run srv (BatchResolution.handleCreateBatch user project panel))) = []
  /\ JS.truthy
       (BatchResolution.error
          (fst (snd (run srv (BatchResolution.handleCreateBatch user project panel)))))
     = true.
Proof.
  intros Hblank. unfold BatchResolution.handleCreateBatch.
  cbn [BatchResolution.setError BatchResolution.batchName BatchResolution.batchId].
  rewrite !trim_truthy.
  destruct (JS.blank (BatchResolution.batchName panel)); [repeat split|].
  destruct Hblank as [H|H]; [discriminate|]. rewrite H. repeat split.
Qed.

(** * Further properties of the components *)

(** ** Parsing a pasted line *)

Lemma split_length (s : string) (sep : ascii) :
  length (JS.split s sep) = S (JS.count s sep).
Proof.
  induction s as [|c r IH]; simpl; [reflexivity|].
  destruct (Ascii.eqb c sep); simpl; [now rewrite IH|].
  destruct (JS.split r sep) as [|piece pieces]; simpl in *; [discriminate | exact IH].
Qed.

Lemma includes_count (s : string) (c : ascii) :
  JS.includes s c = false <-> JS.count s c = 0.
Proof.
  induction s as [|d r IH]; simpl; [tauto|].
  destruct (Ascii.eqb d c); simpl; [split; discriminate | exact IH].
Qed.

Lemma trimEnd_idempotent (s : string) : JS.trimEnd (JS.trimEnd s) = JS.trimEnd s.
Proof.
  induction s as [|c r IH]; [reflexivity|]. simpl.
  destruct (JS.trimEnd r) as [|d r'] eqn:Hr.
  - destruct (JS.is_ws c) eqn:Hc; simpl; [reflexivity | now rewrite Hc].
  - change (JS.trimEnd (String c (String d r'))) with
      (match JS.trimEnd (String d r') with
       | EmptyString => if JS.is_ws c then EmptyString else String c EmptyString
       | String e t => String c (String e t)
       end).
    now rewrite IH.
Qed.

Lemma trimEnd_head (c : ascii) (r : string) :
  JS.is_ws c = false -> exists r', JS.trimEnd (String c r) = String c r'.
Proof.
  intros Hc. simpl. destruct (JS.trimEnd r); [rewrite Hc|]; eauto.
Qed.

Lemma trim_idempotent (s : string) : JS.trim (JS.trim s) = JS.trim s.
Proof.
  unfold JS.trim. pose proof (trimStart_head s) as H.
  destruct (JS.trimStart s) as [|c r]; [reflexivity|].
  destruct H as [Hc _]. destruct (trimEnd_head c r Hc) as [r' Hr'].
  rewrite Hr'. cbn [JS.trimStart]. rewrite Hc, <- Hr'. apply trimEnd_idempotent.
Qed.

(** X1: a pasted line holding a tab is cut at its tabs only, any other
    line at its commas: the line yields one cell more than it has such
    delimiters, and every cell comes out trimmed. *)
Theorem parseRow_cells (line : string) :
  length (parseRow line)
  = S (JS.count line (if JS.includes line JS.TAB then JS.TAB else JS.COMMA))
  /\ (0 < JS.count line JS.TAB -> length (parseRow line) = S (JS.count line JS.TAB))
  /\ (JS.count line JS.TAB = 0 -> length (parseRow line) = S (JS.count line JS.COMMA))
  /\ Forall (fun cell => JS.trim cell = cell) (parseRow line).
Proof.
  assert (Hlen : length (parseRow line)
                 = S (JS.count line (if JS.includes line JS.TAB then JS.TAB else JS.COMMA))).
  { unfold parseRow. rewrite length_map.
    destruct (JS.includes line JS.TAB); apply split_length. }
  split; [exact Hlen|]. split; [|split].
  - intros Htab. rewrite Hlen.
    destruct (JS.includes line JS.TAB) eqn:Hinc; [reflexivity|].
    apply includes_count in Hinc. lia.
  - intros Hnone. rewrite Hlen. apply includes_count in Hnone. now rewrite Hnone.
  - unfold parseRow. apply Forall_forall. intros cell Hin.
    apply list_elem_of_In, in_map_iff in Hin as (raw & <- & _). apply trim_idempotent.
Qed.

(** ** The column order and the schema *)

Lemma columnOrder_elem (fields : list string) (x : string) :
  x ∈ DataTable.columnOrder fields
  <-> x = "Operator" \/ x = "Timestamp" \/ x ∈ fields.
Proof.
  rewrite columnOrder_spec. unfold Spec.columnOrder, Spec.otherFields.
  rewrite !elem_of_app, list_elem_of_filter, !elem_of_cons, elem_of_nil.
  destruct (decide (x = "Sample Name")) as [Hn|Hn];
    destruct (decide (x = "Sample Description")) as [Hd|Hd];
    do 2 case_bool_decide; rewrite ?elem_of_cons, ?elem_of_nil;
    intuition (subst; try congruence; try discriminate).
Qed.

Lemma anchor_elem (n x : string) (fields : list string) :
  x ∈ (if bool_decide (n ∈ fields) then [n] else []) -> x = n /\ n ∈ fields.
Proof.
  case_bool_decide as Hin.
  - intros ->%list_elem_of_singleton. now split.
  - intros []%elem_of_nil.
Qed.

Lemma anchor_NoDup (n : string) (fields : list string) :
  NoDup (if bool_decide (n ∈ fields) then [n] else []).
Proof. case_bool_decide; [apply NoDup_singleton | apply NoDup_nil_2]. Qed.

Lemma columnOrder_NoDup (fields : list string) :
  NoDup fields -> "Operator" ∉ fields -> "Timestamp" ∉ fields ->
  NoDup (DataTable.columnOrder fields).
Proof.
  intros Hnd Ho Ht. rewrite columnOrder_spec. unfold Spec.columnOrder, Spec.otherFields.
  rewrite !NoDup_app. repeat split.
  - apply anchor_NoDup.
  - intros x [-> Hin]%anchor_elem.
    rewrite !elem_of_app, list_elem_of_filter, !elem_of_cons, elem_of_nil.
    intros [[H|[H|[]]]|[[[H _] _]|[H _]%anchor_elem]]; try discriminate H.
    now apply H.
  - apply NoDup_cons. split; [|apply NoDup_singleton].
    intros H%list_elem_of_singleton. discriminate H.
  - intros x Hx. rewrite elem_of_app, list_elem_of_filter.
    intros [[_ Hin]|[-> _]%anchor_elem].
    + apply elem_of_cons in Hx as [->|Hx]; [contradiction|].
      apply list_elem_of_singleton in Hx as ->. contradiction.
    + apply elem_of_cons in Hx as [Hx|Hx]; [discriminate Hx|].
      apply list_elem_of_singleton in Hx. discriminate Hx.
  - now apply NoDup_filter.
  - intros x [[_ Hsd] _]%list_elem_of_filter [-> _]%anchor_elem. now apply Hsd.
  - apply anchor_NoDup.
Qed.

Lemma columnOrder_permutation (fields : list string) :
  NoDup fields -> "Operator" ∉ fields -> "Timestamp" ∉ fields ->
  DataTable.columnOrder fields ≡ₚ "Operator" :: "Timestamp" :: fields.
Proof.
  intros Hnd Ho Ht. apply NoDup_Permutation.
  - now apply columnOrder_NoDup.
  - apply NoDup_cons. split.
    + intros [H|H]%elem_of_cons; [discriminate H | contradiction].
    + apply NoDup_cons. now split.
  - intros x. rewrite columnOrder_elem, !elem_of_cons. tauto.
Qed.

(** X2: a key is a column of the paste order exactly when it is Operator,
    Timestamp or a schema field, whatever the schema.  For a schema
    without repeated fields and without a field named Operator or
    Timestamp, the paste order has no repeated key and is a rearrangement
    of Operator, Timestamp and the schema fields; the grid's column keys
    have no repeated key either and, when the schema has at least one
    field, are the same rearrangement (for the empty schema the grid has
    no column). *)
Theorem column_order_rearranges_schema (fields : list string) :
  (forall x : string,
      x ∈ DataTable.columnOrder fields
      <-> x = "Operator" \/ x = "Timestamp" \/ x ∈ fields)
  /\ (NoDup fields -> "Operator" ∉ fields -> "Timestamp" ∉ fields ->
      NoDup (DataTable.columnOrder fields)
      /\ DataTable.columnOrder fields ≡ₚ "Operator" :: "Timestamp" :: fields
      /\ length (DataTable.columnOrder fields) = 2 + length fields
      /\ NoDup (map key (columns fields))
      /\ (fields <> [] ->
          map key (columns fields) ≡ₚ "Operator" :: "Timestamp" :: fields)
      /\ (fields = [] -> map key (columns fields) = [])).
Proof.
  split; [apply columnOrder_elem|]. intros Hnd Ho Ht.
  pose proof (columnOrder_permutation fields Hnd Ho Ht) as Hperm.
  split; [now apply columnOrder_NoDup|].
  split; [exact Hperm|]. split; [now rewrite Hperm|].
  destruct fields as [|f fs].
  - split; [apply NoDup_nil_2|]. split; [congruence | reflexivity].
  - rewrite columns_keys. split; [now apply columnOrder_NoDup|].
    split; [intros _; exact Hperm | discriminate].
Qed.

Lemma column_order_rearranges_schema_witness :
  map key (columns Scenario.schemaA)
  ≡ₚ "Operator" :: "Timestamp" :: Scenario.schemaA.
Proof.
  apply (column_order_rearranges_schema Scenario.schemaA);
    [decided | decided | decided | discriminate].
Defined.

Lemma assignCells_beyond (order : list string) (cells : list string) :
  forall (n : nat) (row : Row),
    length order <= n -> assignCells order n cells row = row.
Proof.
  induction cells as [|cell rest IH]; intros n row Hn; simpl; [reflexivity|].
  replace (Nat.ltb n (length order)) with false
    by (symmetry; apply Nat.ltb_ge; exact Hn).
  apply IH. lia.
Qed.

Lemma assignCells_take (order : list string) (cells : list string) :
  forall (n : nat) (row : Row),
    assignCells order n cells row
    = assignCells order n (take (length order - n) cells) row.
Proof.
  induction cells as [|cell rest IH]; intros n row.
  - now rewrite take_nil.
  - destruct (le_lt_dec (length order) n) as [Hge|Hlt].
    + rewrite !assignCells_beyond by exact Hge. reflexivity.
    + replace (length order - n) with (S (length order - S n)) by lia.
      cbn [take assignCells]. apply IH.
Qed.

Lemma assignCells_other (order : list string) (cells : list string) (k : string) :
  k ∉ order ->
  forall (n : nat) (row : Row), assignCells order n cells row !! k = row !! k.
Proof.
  intros Hk. induction cells as [|cell rest IH]; intros n row; simpl; [reflexivity|].
  rewrite IH. destruct (Nat.ltb n (length order)); [|reflexivity].
  destruct (order !! n) as [columnKey|] eqn:Hn; [|reflexivity].
  apply lookup_insert_ne. intros ->. apply Hk. apply list_elem_of_lookup. eauto.
Qed.

Lemma assignCells_lookup (order : list string) (cells : list string) :
  NoDup order ->
  forall (n : nat) (row : Row) (i : nat) (k : string),
    order !! i = Some k ->
    assignCells order n cells row !! k
    = if decide (n <= i) then
        match cells !! (i - n) with
        | Some cell => Some cell
        | None => row !! k
        end
      else row !! k.
Proof.
  intros Hnd. induction cells as [|cell rest IH]; intros n row i k Hi.
  - simpl. now case_decide.
  - cbn [assignCells]. rewrite (IH (S n) _ i k Hi).
    assert (Hlt : i < length order) by (apply lookup_lt_is_Some; eauto).
    destruct (decide (n = i)) as [->|Hne].
    + rewrite (proj2 (Nat.ltb_lt i (length order)) Hlt), Hi.
      rewrite decide_False by lia. rewrite decide_True by lia.
      rewrite Nat.sub_diag. cbn. apply lookup_insert_eq.
    + assert (Hrow : (if Nat.ltb n (length order)
                      then match order !! n with
                           | Some columnKey => <[columnKey:=cell]> row
                           | None => row
                           end
                      else row) !! k = row !! k).
      { destruct (Nat.ltb n (length order)); [|reflexivity].
        destruct (order !! n) as [columnKey|] eqn:Hn; [|reflexivity].
        apply lookup_insert_ne. intros ->. apply Hne.
        exact (NoDup_lookup _ _ _ _ Hnd Hn Hi). }
      rewrite Hrow. destruct (decide (n <= i)) as [Hle|Hgt].
      * rewrite decide_True by lia.
        replace (i - n) with (S (i - S n)) by lia. reflexivity.
      * rewrite decide_False by lia. reflexivity.
Qed.

Lemma blankRow_lookup (fields : list string) (operatorName rowId k : string) :
  blankRow fields operatorName rowId !! k
  = if bool_decide (k ∈ fields) then Some ""
    else if decide (k = "Operator") then Some (JS.or_else operatorName "")
         else if decide (k = "Timestamp") then Some ""
              else if decide (k = "id") then Some rowId else None.
Proof.
  unfold blankRow. rewrite blanked_lookup. case_bool_decide; [reflexivity|].
  repeat case_decide; subst; simplify_map_eq; reflexivity.
Qed.

(** Set goals over row keys, settled by membership. *)
Ltac by_membership :=
  try (apply set_eq; intros ?);
  cbn [list_to_set foldr];
  rewrite ?elem_of_union, ?elem_of_singleton, ?elem_of_list_to_set, ?elem_of_empty;
  intuition congruence.

Lemma dom_blanked (fields : list string) (base : Row) :
  dom (fold_left (fun row field => <[field := ""]> row) fields base)
  = list_to_set fields ∪ dom base.
Proof.
  revert base. induction fields as [|f fs IH]; intros base; simpl.
  - by_membership.
  - rewrite IH, dom_insert_L. by_membership.
Qed.

Lemma dom_assignCells (order : list string) (cells : list string) :
  forall (n : nat) (row : Row),
    (forall k : string, k ∈ order -> k ∈ dom row) ->
    dom (assignCells order n cells row) = dom row.
Proof.
  induction cells as [|cell rest IH]; intros n row Hsub; simpl; [reflexivity|].
  destruct (Nat.ltb n (length order)); [|now apply IH].
  destruct (order !! n) as [columnKey|] eqn:Hn; [|now apply IH].
  assert (Hin : columnKey ∈ dom row) by (apply Hsub, list_elem_of_lookup; eauto).
  assert (Hdom : dom (<[columnKey:=cell]> row) = dom row).
  { rewrite dom_insert_L. apply set_eq. intros k.
    rewrite elem_of_union, elem_of_singleton. intuition congruence. }
  rewrite IH; [exact Hdom|]. intros k Hk. rewrite Hdom. now apply Hsub.
Qed.

Lemma dom_blankRow (fields : list string) (operatorName rowId : string) :
  dom (blankRow fields operatorName rowId) = rowKeys fields.
Proof.
  unfold blankRow, rowKeys. rewrite dom_blanked, !dom_insert_L, dom_empty_L.
  by_membership.
Qed.

Lemma columnOrder_in_rowKeys (fields : list string) (k : string) :
  k ∈ DataTable.columnOrder fields -> k ∈ rowKeys fields.
Proof.
  rewrite columnOrder_elem. unfold rowKeys. intros [->|[->|Hin]]; by_membership.
Qed.

Lemma newRows_lookup (fields : list string) (operatorName : string) (base : nat)
    (parsedRows : list (list string)) (idx : nat) :
  newRows fields operatorName base parsedRows !! idx
  = (fun cells =>
       assignCells (DataTable.columnOrder fields) 0 cells
         (blankRow fields operatorName ("row-" +:+ JS.of_nat (base + idx))))
    <$> parsedRows !! idx.
Proof. unfold newRows. apply list_lookup_imap. Qed.

Lemma dom_newRows (fields : list string) (operatorName : string) (base : nat)
    (parsedRows : list (list string)) :
  Forall (fun row : Row => dom row = rowKeys fields)
    (newRows fields operatorName base parsedRows).
Proof.
  apply Forall_forall. intros row [idx Hidx]%list_elem_of_lookup.
  rewrite newRows_lookup in Hidx.
  destruct (parsedRows !! idx) as [cells|]; [|discriminate].
  injection Hidx as <-. rewrite dom_assignCells; [apply dom_blankRow|].
  intros k Hk. rewrite dom_blankRow. now apply columnOrder_in_rowKeys.
Qed.

(** X5: once every row of the grid has exactly the keys id, Timestamp,
    Operator and the schema fields, pasting, adding a row, removing the
    last row and clearing all keep it so: no handler drops a column or
    invents a key outside the schema. *)
Theorem rows_keep_schema_shape (fields : list string) (operatorName : string)
    (rows : list Row) :
  Forall (fun row : Row => dom row = rowKeys fields) rows ->
  (forall text : string,
      Forall (fun row : Row => dom row = rowKeys fields)
        (rows_after (paste (handlePaste fields operatorName rows text))))
  /\ Forall (fun row : Row => dom row = rowKeys fields)
       (rows_after (handleAddRow fields operatorName rows))
  /\ Forall (fun row : Row => dom row = rowKeys fields)
       (rows_after (handleRemoveRow fields rows))
  /\ Forall (fun row : Row => dom row = rowKeys fields)
       (rows_after (handleClearAll fields operatorName rows)).
Proof.
  intros Hrows. split; [|split; [|split]].
  - intros text. rewrite handlePaste_rows. apply Forall_app. split; [exact Hrows|].
    apply dom_newRows.
  - cbn [handleAddRow rows_after]. apply Forall_app. split; [exact Hrows|].
    apply Forall_singleton, dom_blankRow.
  - unfold handleRemoveRow. destruct (Nat.ltb 0 (length rows)); [|exact Hrows].
    cbn [rows_after]. unfold dropLast. now apply Forall_take.
  - cbn [handleClearAll rows_after]. induction Hrows as [|row rest Hrow _ IH]; [constructor|].
    cbn [map]. constructor; [|exact IH].
    rewrite dom_blanked, !dom_insert_L.
    assert (Hid : is_Some (row !! "id")).
    { apply elem_of_dom. rewrite Hrow. unfold rowKeys. by_membership. }
    destruct Hid as [i ->]. rewrite dom_insert_L, dom_empty_L. unfold rowKeys.
    by_membership.
Qed.

Lemma rows_keep_schema_shape_witness :
  Forall (fun row : Row => dom row = rowKeys Scenario.schemaA)
    (rows_after (handleAddRow Scenario.schemaA "Ada" [Scenario.populatedRow])).
Proof.
  apply (rows_keep_schema_shape Scenario.schemaA "Ada" [Scenario.populatedRow]).
  decided.
Defined.

Lemma of_nat_inj (n m : nat) : JS.of_nat n = JS.of_nat m -> n = m.
Proof.
  unfold JS.of_nat. intros H.
  apply (f_equal NilEmpty.uint_of_string) in H. rewrite !NilEmpty.usu in H.
  injection H as H. now apply DecimalNat.Unsigned.to_uint_inj.
Qed.

Lemma rowId_inj (n m : nat) :
  "row-" +:+ JS.of_nat n = "row-" +:+ JS.of_nat m -> n = m.
Proof. cbn. intros H. injection H as H. now apply of_nat_inj. Qed.

Lemma id_not_column (fields : list string) :
  "id" ∉ fields -> "id" ∉ DataTable.columnOrder fields.
Proof.
  intros Hid. rewrite columnOrder_elem. intros [H|[H|H]]; [discriminate H | discriminate H | auto].
Qed.

Lemma blankRow_id (fields : list string) (operatorName rowId : string) :
  "id" ∉ fields -> blankRow fields operatorName rowId !! "id" = Some rowId.
Proof.
  intros Hid. rewrite blankRow_lookup. rewrite bool_decide_eq_false_2 by exact Hid.
  reflexivity.
Qed.

(** X6: when the schema has no field called id and row i carries the
    identifier row-i, every row after a paste, an added row, a removal or
    a clearing is numbered the same way, so the identifiers given to the
    grid's [rowKeyGetter] are pairwise distinct. *)
Theorem row_ids_stay_distinct (fields : list string) (operatorName : string)
    (rows : list Row) :
  "id" ∉ fields ->
  wellNumbered rows ->
  (forall text : string,
      wellNumbered (rows_after (paste (handlePaste fields operatorName rows text))))
  /\ wellNumbered (rows_after (handleAddRow fields operatorName rows))
  /\ wellNumbered (rows_after (handleRemoveRow fields rows))
  /\ wellNumbered (rows_after (handleClearAll fields operatorName rows))
  /\ (forall (i j : nat) (row row' : Row),
        rows !! i = Some row -> rows !! j = Some row' ->
        row !! "id" = row' !! "id" -> i = j).
Proof.
  intros Hid Hwell. split; [|split; [|split; [|split]]].
  - intros text i row. rewrite handlePaste_rows.
    intros [Hold|[Hge Hnew]]%lookup_app_Some; [now apply Hwell|].
    rewrite newRows_lookup in Hnew.
    destruct (_ !! (i - length rows)) as [cells|]; [|discriminate].
    injection Hnew as <-.
    rewrite assignCells_other by now apply id_not_column.
    rewrite blankRow_id by exact Hid.
    replace (length rows + (i - length rows)) with i by lia. reflexivity.
  - intros i row. cbn [handleAddRow rows_after].
    intros [Hold|[Hge Hnew]]%lookup_app_Some; [now apply Hwell|].
    apply list_lookup_singleton_Some in Hnew as [Hi <-].
    rewrite blankRow_id by exact Hid.
    replace i with (length rows) by lia. reflexivity.
  - intros i row. unfold handleRemoveRow.
    destruct (Nat.ltb 0 (length rows)); cbn [rows_after]; [|apply Hwell].
    unfold dropLast. intros [Hrow _]%lookup_take_Some. now apply Hwell.
  - intros i row. cbn [handleClearAll rows_after].
    change (map ?f rows) with (f <$> rows). rewrite list_lookup_fmap.
    destruct (rows !! i) as [old|] eqn:Hold; [|discriminate].
    cbn. intros [= <-]. rewrite blanked_lookup.
    rewrite bool_decide_eq_false_2 by exact Hid.
    rewrite (Hwell i old Hold). now simplify_map_eq.
  - intros i j row row' Hi Hj Heq.
    rewrite (Hwell i row Hi), (Hwell j row' Hj) in Heq.
    injection Heq as Heq. now apply of_nat_inj.
Qed.

Lemma row_ids_stay_distinct_witness :
  wellNumbered
    (rows_after
       (handleAddRow Scenario.schemaA "Ada"
          [Scenario.operatorOnlyRow; Scenario.populatedRow])).
Proof.
  apply (row_ids_stay_distinct Scenario.schemaA "Ada"
           [Scenario.operatorOnlyRow; Scenario.populatedRow]).
  - decided.
  - intros [|[|i]] row Hrow; cbn in Hrow; [| |discriminate Hrow];
      injection Hrow as <-; vm_compute; reflexivity.
Defined.

(** X3: for a schema without repeated fields and without a field named
    Operator or Timestamp, the row built from a pasted line holds, under
    the column at position i, the trimmed cell i of the line; a column the
    line has no cell for keeps its default, the operator's name under
    Operator and the empty text elsewhere. *)
Theorem pasted_cells_land_by_position (fields : list string) (operatorName : string)
    (rows : list Row) (text : string) (idx : nat) (line : string)
    (i : nat) (k : string) :
  NoDup fields -> "Operator" ∉ fields -> "Timestamp" ∉ fields ->
  pastedRows text !! idx = Some line ->
  DataTable.columnOrder fields !! i = Some k ->
  exists row : Row,
    rows_after (paste (handlePaste fields operatorName rows text)) !! (length rows + idx)
    = Some row
    /\ row !! k
       = Some (match parseRow line !! i with
               | Some cell => cell
               | None => if decide (k = "Operator") then JS.or_else operatorName "" else ""
               end).
Proof.
  intros Hnd Ho Ht Hline Hk.
  rewrite handlePaste_rows, lookup_app_r by lia.
  replace (length rows + idx - length rows) with idx by lia.
  rewrite newRows_lookup.
  change (map parseRow (pastedRows text)) with (parseRow <$> pastedRows text).
  rewrite list_lookup_fmap, Hline. cbn [fmap option_fmap option_map].
  eexists. split; [reflexivity|].
  rewrite (assignCells_lookup _ _ (columnOrder_NoDup fields Hnd Ho Ht) 0 _ i k Hk).
  rewrite decide_True by lia. rewrite Nat.sub_0_r.
  destruct (parseRow line !! i) as [cell|]; [reflexivity|].
  rewrite blankRow_lookup.
  assert (Hin : k ∈ DataTable.columnOrder fields) by (apply list_elem_of_lookup; eauto).
  apply columnOrder_elem in Hin as [->|[->|Hin]].
  - rewrite bool_decide_eq_false_2 by exact Ho. reflexivity.
  - rewrite bool_decide_eq_false_2 by exact Ht. reflexivity.
  - rewrite bool_decide_eq_true_2 by exact Hin.
    rewrite decide_False by (intros ->; contradiction). reflexivity.
Qed.

Lemma pasted_cells_land_by_position_witness :
  exists row : Row,
    rows_after (paste (handlePaste Scenario.schemaA "Ada" [] Scenario.textA)) !! (0 + 0)
    = Some row
    /\ row !! "Operator"
       = Some (match parseRow ("Alpha" +:+ String JS.TAB "2024-01-01") !! 1 with
               | Some cell => cell
               | None => if decide ("Operator" = "Operator") then JS.or_else "Ada" "" else ""
               end).
Proof.
  apply (pasted_cells_land_by_position Scenario.schemaA "Ada" [] Scenario.textA 0
           ("Alpha" +:+ String JS.TAB "2024-01-01") 1 "Operator").
  - decided.
  - decided.
  - decided.
  - vm_compute. reflexivity.
  - vm_compute. reflexivity.
Defined.

(** X4: cells beyond the last column are dropped: cutting every parsed
    line down to as many cells as there are columns changes no row. *)
Theorem overflow_cells_ignored (fields : list string) (operatorName : string)
    (base : nat) (parsedRows : list (list string)) :
  newRows fields operatorName base parsedRows
  = newRows fields operatorName base
      (map (take (length (DataTable.columnOrder fields))) parsedRows)
  /\ forall (cells : list string) (row : Row),
       assignCells (DataTable.columnOrder fields) 0 cells row
       = assignCells (DataTable.columnOrder fields) 0
           (take (length (DataTable.columnOrder fields)) cells) row.
Proof.
  assert (Hcut : forall (cells : list string) (row : Row),
             assignCells (DataTable.columnOrder fields) 0 cells row
             = assignCells (DataTable.columnOrder fields) 0
                 (take (length (DataTable.columnOrder fields)) cells) row).
  { intros cells row. rewrite (assignCells_take _ cells 0 row).
    now rewrite Nat.sub_0_r. }
  split; [|exact Hcut].
  unfold newRows. apply list_eq. intros idx.
  change (map ?f parsedRows) with (f <$> parsedRows).
  rewrite !list_lookup_imap, list_lookup_fmap.
  destruct (parsedRows !! idx) as [cells|]; [|reflexivity].
  cbn. f_equal. apply Hcut.
Qed.

(** X7: the rows handed to the form never carry the id key, come in table
    order, and each one is a row of the table that has some schema field
    filled in; so the body of an upload built from them has no id. *)
Theorem cleaned_rows_never_carry_id (fields : list string) (rows : list Row) :
  Forall (fun row : Row => row !! "id" = None) (cleanedRows fields rows)
  /\ sublist (cleanedRows fields rows) (map stripId rows)
  /\ (forall row : Row,
        row ∈ cleanedRows fields rows ->
        exists original : Row,
          original ∈ rows /\ row = stripId original
          /\ rowNonEmpty fields original = true)
  /\ forall (user : UserInfo.t) (batch : option string) (form : MainForm.State),
       MainForm.tableData form = cleanedRows fields rows ->
       Forall (fun row : Row => row !! "id" = None)
         (UploadData.data (MainForm.uploadData user batch form)).
Proof.
  assert (Hno : Forall (fun row : Row => row !! "id" = None) (cleanedRows fields rows)).
  { unfold cleanedRows. apply Forall_forall. intros row Hin.
    apply list_elem_of_In, in_map_iff in Hin as (original & <- & _).
    apply lookup_delete_eq. }
  split; [exact Hno|]. split; [|split].
  - unfold cleanedRows. change (map stripId ?l) with (stripId <$> l).
    apply fmap_sublist, sublist_filter.
  - intros row Hin. unfold cleanedRows in Hin.
    apply list_elem_of_In, in_map_iff in Hin as (original & <- & Hin).
    apply list_elem_of_In, list_elem_of_filter in Hin as [Hkeep Hin]. eauto.
  - intros user batch form Htable. cbn [MainForm.uploadData UploadData.data].
    rewrite Htable. exact Hno.
Qed.

(** X8: "Clear All" keeps the number of rows and, unless the schema has a
    field so named, each row's id; it empties every schema field and
    Timestamp, puts the operator's name back under Operator, and reports an
    empty table to the form. *)
Theorem clear_all_keeps_rows (fields : list string) (operatorName : string)
    (rows : list Row) :
  length (rows_after (handleClearAll fields operatorName rows)) = length rows
  /\ onChange_calls (handleClearAll fields operatorName rows) = [[]]
  /\ forall (i : nat) (row : Row),
       rows !! i = Some row ->
       exists cleared : Row,
         rows_after (handleClearAll fields operatorName rows) !! i = Some cleared
         /\ (forall f : string, f ∈ fields -> cleared !! f = Some "")
         /\ ("id" ∉ fields -> cleared !! "id" = row !! "id")
         /\ ("Timestamp" ∉ fields -> cleared !! "Timestamp" = Some "")
         /\ ("Operator" ∉ fields ->
             cleared !! "Operator" = Some (JS.or_else operatorName "")).
Proof.
  split; [|split].
  - cbn [handleClearAll rows_after]. apply length_map.
  - reflexivity.
  - intros i row Hrow. cbn [handleClearAll rows_after].
    change (map ?f rows) with (f <$> rows). rewrite list_lookup_fmap, Hrow.
    eexists. split; [reflexivity|]. split; [|split; [|split]].
    + intros f Hf. rewrite blanked_lookup. now rewrite bool_decide_eq_true_2.
    + intros Hid. rewrite blanked_lookup, bool_decide_eq_false_2 by exact Hid.
      destruct (row !! "id"); now simplify_map_eq.
    + intros Ht. rewrite blanked_lookup, bool_decide_eq_false_2 by exact Ht.
      now simplify_map_eq.
    + intros Ho. rewrite blanked_lookup, bool_decide_eq_false_2 by exact Ho.
      now simplify_map_eq.
Qed.

(** X9: "Remove Last Row" takes away exactly the last row and reports the
    cleaned rest; in particular it undoes "Add Row", and a table with rows
    gets one row shorter. *)
Theorem remove_takes_back_last_row (fields : list string) (operatorName : string)
    (rows : list Row) :
  (forall last : Row,
      handleRemoveRow fields (rows ++ [last])
      = {| rows_after := rows; onChange_calls := [cleanedRows fields rows] |})
  /\ rows_after
       (handleRemoveRow fields (rows_after (handleAddRow fields operatorName rows)))
     = rows
  /\ (rows <> [] ->
      S (length (rows_after (handleRemoveRow fields rows))) = length rows).
Proof.
  assert (Hlast : forall last : Row,
             handleRemoveRow fields (rows ++ [last])
             = {| rows_after := rows; onChange_calls := [cleanedRows fields rows] |}).
  { intros last. unfold handleRemoveRow, dropLast. rewrite length_app. cbn [length].
    replace (Nat.ltb 0 (length rows + 1)) with true
      by (symmetry; apply Nat.ltb_lt; lia).
    replace (length rows + 1 - 1) with (length rows) by lia.
    now rewrite take_app_length. }
  split; [exact Hlast|]. split.
  - cbn [handleAddRow rows_after]. now rewrite Hlast.
  - intros Hne. unfold handleRemoveRow, dropLast.
    destruct rows as [|r rs]; [congruence|]. cbn [length Nat.ltb Nat.leb rows_after].
    rewrite length_take. cbn [length]. lia.
Qed.

Lemma or_else_truthy (a b : string) :
  JS.truthy b = true -> JS.truthy (JS.or_else a b) = true.
Proof. unfold JS.or_else. now destruct (JS.truthy a) eqn:Ha. Qed.

Lemma opt_or_else_truthy (a : option string) (b : string) :
  JS.truthy b = true -> JS.truthy (JS.opt_or_else a b) = true.
Proof. destruct a; [apply or_else_truthy | trivial]. Qed.

(** Every way [handleUpload] can go, each with the requests it sends. *)
Ltac upload_paths srv user form :=
  unfold MainForm.handleUpload, MainForm.performUpload;
  cbn [MainForm.setError MainForm.setLoading MainForm.selectedProject
       MainForm.selectedSynthesisType MainForm.tableData MainForm.batchId
       MainForm.loading MainForm.error MainForm.synthesisFields];
  destruct (JS.truthy (MainForm.selectedProject form)) eqn:?Hproject; cbn [negb run];
  [destruct (JS.truthy (MainForm.selectedSynthesisType form)) eqn:?Htype; cbn [negb run];
   [destruct (Nat.eqb (length (MainForm.tableData form)) 0) eqn:?Hrows; cbn [run];
    [|destruct (JS.truthy (JS.trim (MainForm.batchId form))) eqn:?Hbatch; cbn [run];
      [destruct (resolve_reply srv (JS.trim (MainForm.batchId form))
                   (UserInfo.orcid user) (MainForm.selectedProject form))
         as [?resolution|?err] eqn:?Hresolve; cbn [run];
       [destruct (MainForm.needsDecision resolution) eqn:?Hdecision; cbn [run];
        [|destruct (upload_reply srv _) as [?response|?err] eqn:?Hupload; cbn [run];
          [destruct (UploadResponse.success response) eqn:?Hsuccess; cbn [run]|]]|]
      |destruct (upload_reply srv _) as [?response|?err] eqn:?Hupload; cbn [run];
       [destruct (UploadResponse.success response) eqn:?Hsuccess; cbn [run]|]]]|]|].

(** X11: however the service answers, [handleUpload] either calls its
    parent exactly once and leaves the error text empty, or calls nobody
    and leaves a non-empty error text; it never makes two calls. *)
Theorem handleUpload_never_fails_silently (srv : Backend) (user : UserInfo.t)
    (form : MainForm.State) :
  let after := fst (snd (run srv (MainForm.handleUpload user form))) in
  let calls := snd (snd (run srv (MainForm.handleUpload user form))) in
  (calls = [] -> JS.truthy (MainForm.error after) = true)
  /\ (calls <> [] -> MainForm.error after = "")
  /\ length calls <= 1.
Proof.
  upload_paths srv user form; cbn;
    (split; [|split]); try congruence; try lia; intros _;
    try reflexivity; now apply opt_or_else_truthy.
Qed.

(** X12: [handleUpload] changes nothing the operator entered (project,
    synthesis type, batch text, rows, schemas), and a form that was not
    busy is not busy when the handler has finished. *)
Theorem handleUpload_leaves_the_form (srv : Backend) (user : UserInfo.t)
    (form : MainForm.State) :
  let after := fst (snd (run srv (MainForm.handleUpload user form))) in
  MainForm.selectedProject after = MainForm.selectedProject form
  /\ MainForm.selectedSynthesisType after = MainForm.selectedSynthesisType form
  /\ MainForm.batchId after = MainForm.batchId form
  /\ MainForm.tableData after = MainForm.tableData form
  /\ MainForm.synthesisFields after = MainForm.synthesisFields form
  /\ (MainForm.loading form = false -> MainForm.loading after = false).
Proof.
  upload_paths srv user form; cbn; repeat split; trivial.
Qed.

(** X13: one run of [handleUpload] sends nothing, or one upload without
    batch, or one resolve request, or one resolve request followed by one
    upload with the batch id the resolver gave; it never creates a batch,
    and every upload carries the form's project, type and rows. *)
Theorem handleUpload_request_shapes (srv : Backend) (user : UserInfo.t)
    (form : MainForm.State) :
  let evs := fst (run srv (MainForm.handleUpload user form)) in
  let resolving :=
    Resolve_call (JS.trim (MainForm.batchId form)) (UserInfo.orcid user)
      (MainForm.selectedProject form) in
  evs = []
  \/ (exists reply, evs = [Upload_call (MainForm.uploadData user None form) reply])
  \/ (exists answer, evs = [resolving answer])
  \/ (exists resolution reply,
        MainForm.needsDecision resolution = false
        /\ evs = [resolving (Returned resolution);
                  Upload_call
                    (MainForm.uploadData user (Resolution.batch_id resolution) form)
                    reply]).
Proof.
  upload_paths srv user form; cbn; eauto 8.
Qed.

Lemma blank_not_truthy (s : string) :
  JS.blank s = true -> JS.truthy (JS.trim s) = false.
Proof. intros H. now rewrite trim_truthy, H. Qed.

(** X14: a batch text made of white space only counts as no batch: the
    validated submission skips the resolver, uploads with [batch_id] null,
    and reports the accepted upload to its parent. *)
Theorem blank_batch_uploads_unlinked (srv : Backend) (user : UserInfo.t)
    (form : MainForm.State) :
  MainForm.selectedProject form <> "" ->
  MainForm.selectedSynthesisType form <> "" ->
  MainForm.tableData form <> [] ->
  JS.blank (MainForm.batchId form) = true ->
  fst (run srv (MainForm.handleUpload user form))
  = [Upload_call (MainForm.uploadData user None form)
       (upload_reply srv (MainForm.uploadData user None form))]
  /\ forall response : UploadResponse.t,
       upload_reply srv (MainForm.uploadData user None form) = Returned response ->
       UploadResponse.success response = true ->
       snd (snd (run srv (MainForm.handleUpload user form)))
       = [MainForm.onUploadSuccess (UploadResponse.message response)
            (UploadResponse.summary response)].
Proof.
  intros Hp Ht Hd Hb. rewrite handleUpload_validated by assumption. cbv zeta.
  rewrite (blank_not_truthy _ Hb). unfold MainForm.performUpload. cbn [run].
  change (MainForm.uploadData user None (MainForm.setLoading true (MainForm.setError "" form)))
    with (MainForm.uploadData user None form).
  destruct (upload_reply srv (MainForm.uploadData user None form)) as [response|err].
  - destruct (UploadResponse.success response) eqn:Hs; cbn; split; try reflexivity.
    + now intros r [= <-] _.
    + intros r [= <-]. congruence.
  - cbn. split; [reflexivity | discriminate].
Qed.

Lemma blank_batch_uploads_unlinked_witness :
  fst (run Scenario.emptyService (MainForm.handleUpload Scenario.ada Scenario.formSpaces))
  = [Upload_call (MainForm.uploadData Scenario.ada None Scenario.formSpaces)
       (Returned Scenario.accepted)].
Proof.
  apply (blank_batch_uploads_unlinked Scenario.emptyService Scenario.ada
           Scenario.formSpaces).
  - discriminate.
  - discriminate.
  - discriminate.
  - reflexivity.
Defined.

(** X15: when the resolver answers with anything but "not found" or
    "multiple matches", the submission goes on in the same run: it uploads
    the rows with the [batch_id] of the answer and reports an accepted
    upload to its parent. *)
Theorem resolved_batch_is_uploaded (srv : Backend) (user : UserInfo.t)
    (form : MainForm.State) (resolution : Resolution.t) :
  MainForm.selectedProject form <> "" ->
  MainForm.selectedSynthesisType form <> "" ->
  MainForm.tableData form <> [] ->
  JS.blank (MainForm.batchId form) = false ->
  resolve_reply srv (JS.trim (MainForm.batchId form)) (UserInfo.orcid user)
    (MainForm.selectedProject form) = Returned resolution ->
  MainForm.needsDecision resolution = false ->
  let uploadData := MainForm.uploadData user (Resolution.batch_id resolution) form in
  fst (run srv (MainForm.handleUpload user form))
  = [Resolve_call (JS.trim (MainForm.batchId form)) (UserInfo.orcid user)
       (MainForm.selectedProject form) (Returned resolution);
     Upload_call uploadData (upload_reply srv uploadData)]
  /\ forall response : UploadResponse.t,
       upload_reply srv uploadData = Returned response ->
       UploadResponse.success response = true ->
       snd (snd (run srv (MainForm.handleUpload user form)))
       = [MainForm.onUploadSuccess (UploadResponse.message response)
            (UploadResponse.summary response)].
Proof.
  intros Hp Ht Hd Hb Hres Hnd uploadData.
  rewrite handleUpload_validated by assumption. cbv zeta.
  rewrite trim_truthy, Hb. cbn [negb run]. rewrite Hres, Hnd.
  unfold MainForm.performUpload. cbn [run].
  change (MainForm.uploadData user (Resolution.batch_id resolution)
            (MainForm.setLoading true (MainForm.setError "" form)))
    with uploadData.
  destruct (upload_reply srv uploadData) as [response|err].
  - destruct (UploadResponse.success response) eqn:Hs; cbn; split; try reflexivity.
    + now intros r [= <-] _.
    + intros r [= <-]. congruence.
  - cbn. split; [reflexivity | discriminate].
Qed.

Lemma resolved_batch_is_uploaded_witness :
  fst (run Scenario.knowingService (MainForm.handleUpload Scenario.ada Scenario.form404))
  = [Resolve_call "B-404" "0000-0001" "PV" (Returned Scenario.resolved7);
     Upload_call (MainForm.uploadData Scenario.ada (Some "u-7") Scenario.form404)
       (Returned Scenario.accepted)].
Proof.
  apply (resolved_batch_is_uploaded Scenario.knowingService Scenario.ada
           Scenario.form404 Scenario.resolved7).
  - discriminate.
  - discriminate.
  - discriminate.
  - reflexivity.
  - reflexivity.
  - reflexivity.
Defined.

(** X16: when the resolve request fails, nothing is uploaded and nobody
    is called; the form shows the failure's detail, or "An error occurred
    during upload" when there is none, and is no longer busy. *)
Theorem resolver_failure_uploads_nothing (srv : Backend) (user : UserInfo.t)
    (form : MainForm.State) (err : Err.t) :
  MainForm.selectedProject form <> "" ->
  MainForm.selectedSynthesisType form <> "" ->
  MainForm.tableData form <> [] ->
  JS.blank (MainForm.batchId form) = false ->
  resolve_reply srv (JS.trim (MainForm.batchId form)) (UserInfo.orcid user)
    (MainForm.selectedProject form) = Threw err ->
  run srv (MainForm.handleUpload user form)
  = ([Resolve_call (JS.trim (MainForm.batchId form)) (UserInfo.orcid user)
        (MainForm.selectedProject form) (Threw err)],
     (MainForm.setLoading false
        (MainForm.setError
           (JS.opt_or_else (Err.detail err) "An error occurred during upload") form),
      [])).
Proof.
  intros Hp Ht Hd Hb Hres.
  rewrite handleUpload_validated by assumption. cbv zeta.
  rewrite trim_truthy, Hb. cbn [negb run]. rewrite Hres. reflexivity.
Qed.

Lemma resolver_failure_uploads_nothing_witness :
  run Scenario.downService (MainForm.handleUpload Scenario.ada Scenario.form404)
  = ([Resolve_call "B-404" "0000-0001" "PV" (Threw Scenario.timeout)],
     (MainForm.setLoading false
        (MainForm.setError "An error occurred during upload" Scenario.form404),
      [])).
Proof.
  apply (resolver_failure_uploads_nothing Scenario.downService Scenario.ada
           Scenario.form404 Scenario.timeout).
  - discriminate.
  - discriminate.
  - discriminate.
  - reflexivity.
  - reflexivity.
Defined.

(** X17: changing the synthesis type, or pressing Cancel, empties the rows
    held for submission: an upload attempted right afterwards sends nothing
    and calls nobody; after Cancel the grid is hidden, and after a type
    change with a project selected the message asks for a row of data. *)
Theorem upload_after_reset_sends_nothing (srv : Backend) (user : UserInfo.t)
    (form : MainForm.State) (value : string) :
  fst (run srv (MainForm.handleUpload user
                  (MainForm.handleSynthesisTypeChange value form))) = []
  /\ snd (snd (run srv (MainForm.handleUpload user
                          (MainForm.handleSynthesisTypeChange value form)))) = []
  /\ fst (run srv (MainForm.handleUpload user (MainForm.handleCancel form))) = []
  /\ snd (snd (run srv (MainForm.handleUpload user (MainForm.handleCancel form)))) = []
  /\ MainForm.showTable (MainForm.handleCancel form) = false
  /\ (MainForm.selectedProject form <> "" -> value <> "" ->
      MainForm.error
        (fst (snd (run srv (MainForm.handleUpload user
                              (MainForm.handleSynthesisTypeChange value form)))))
      = "Please enter at least one row of data").
Proof.
  unfold MainForm.handleUpload.
  cbn [MainForm.handleSynthesisTypeChange MainForm.handleCancel MainForm.setError
       MainForm.selectedProject MainForm.selectedSynthesisType MainForm.tableData
       MainForm.batchId MainForm.showTable JS.truthy negb andb length Nat.eqb].
  destruct (JS.truthy (MainForm.selectedProject form)) eqn:Hp;
    destruct (JS.truthy value) eqn:Hv; cbn; repeat split; trivial; intros Hp' Hv';
    rewrite ?(truthy_nonempty _ Hp'), ?(truthy_nonempty _ Hv') in *; discriminate.
Qed.

(** X18: whenever the form shows the grid, a synthesis type is selected
    and its schema has at least one field, so the grid's columns are the
    full order with Operator and Timestamp, the same order the paste
    handler uses. *)
Theorem shown_grid_has_all_columns (form : MainForm.State) :
  MainForm.showTable form = true ->
  MainForm.selectedSynthesisType form <> ""
  /\ MainForm.synthesisFields form !! MainForm.selectedSynthesisType form
     = Some (MainForm.currentFields form)
  /\ MainForm.currentFields form <> []
  /\ map key (columns (MainForm.currentFields form))
     = Spec.columnOrder (MainForm.currentFields form)
  /\ map key (columns (MainForm.currentFields form))
     = DataTable.columnOrder (MainForm.currentFields form).
Proof.
  unfold MainForm.showTable, MainForm.currentFields.
  destruct (MainForm.selectedSynthesisType form) as [|c r] eqn:Htype; [discriminate|].
  cbn [JS.truthy andb].
  destruct (MainForm.synthesisFields form !! String c r) as [fields|]; [|discriminate].
  destruct fields as [|f fs]; [discriminate|]. intros _.
  repeat split; try discriminate.
  - now rewrite columns_keys, columnOrder_spec.
  - apply columns_keys.
Qed.

Lemma shown_grid_has_all_columns_witness :
  map key (columns (MainForm.currentFields Scenario.form404))
  = DataTable.columnOrder (MainForm.currentFields Scenario.form404).
Proof.
  apply (shown_grid_has_all_columns Scenario.form404). reflexivity.
Defined.

(** X20: confirming a candidate chosen from the list resumes the
    suspended submission: the only request is the upload of the pending
    project, type and rows with the chosen unique id as [batch_id]. *)
Theorem chosen_match_is_uploaded (srv : Backend) (app : App.State)
    (user : UserInfo.t) (resolution : Resolution.t) (pendingData : Pending.t)
    (panel : BatchResolution.State) :
  App.suspended app user resolution pendingData ->
  BatchResolution.selectedBatch panel <> "" ->
  BatchResolution.selectedBatch panel
    ∈ map Match.unique_id (Resolution.matches resolution) ->
  let uploadData :=
    App.uploadData user pendingData (Some (BatchResolution.selectedBatch panel)) in
  run srv (App.clickConfirmSelection panel app)
  = ([Upload_call uploadData (upload_reply srv uploadData)],
     (panel, App.settle (upload_reply srv uploadData) app)).
Proof.
  intros (Hview & Huser & Hres & Hpend & _) Hne Hin uploadData.
  unfold App.clickConfirmSelection. rewrite Hview, Hres.
  rewrite (chosen_candidate_resolves _ _ Hne Hin).
  cbn [App.fromBatchResolutionAll App.fromBatchResolution].
  unfold App.handleBatchResolved. rewrite Huser, Hpend. reflexivity.
Qed.

Lemma chosen_match_is_uploaded_witness :
  run Scenario.emptyService (App.clickConfirmSelection Scenario.secondChoice Scenario.paused17)
  = ([Upload_call (App.uploadData Scenario.ada Scenario.pending404 (Some "u-2"))
        (Returned Scenario.accepted)],
     (Scenario.secondChoice,
      App.settle (Returned Scenario.accepted) Scenario.paused17)).
Proof.
  apply (chosen_match_is_uploaded Scenario.emptyService Scenario.paused17 Scenario.ada
           Scenario.twoMatches Scenario.pending404 Scenario.secondChoice).
  - repeat split.
  - discriminate.
  - decided.
Defined.

(** X21: creating a batch from the suspended state sends the create
    request with the typed name, id and description, the user's ORCID and
    the pending project; when the service accepts, the pending rows are
    uploaded with the new unique id, and when it rejects or fails nothing
    is uploaded, the session stays suspended and the panel shows an
    error. *)
Theorem created_batch_is_uploaded (srv : Backend) (app : App.State)
    (user : UserInfo.t) (resolution : Resolution.t) (pendingData : Pending.t)
    (panel : BatchResolution.State) :
  App.suspended app user resolution pendingData ->
  JS.blank (BatchResolution.batchName panel) = false ->
  JS.blank (BatchResolution.batchId panel) = false ->
  let batchData :=
    {| BatchData.batch_name := BatchResolution.batchName panel;
       BatchData.batch_id := BatchResolution.batchId panel;
       BatchData.batch_description := BatchResolution.batchDescription panel;
       BatchData.orcid := UserInfo.orcid user;
       BatchData.project := Some (Pending.project pendingData) |} in
  let created := Create_call batchData (create_reply srv batchData) in
  let outcome := run srv (App.clickCreateBatch panel app) in
  match create_reply srv batchData with
  | Returned response =>
      if CreateResponse.success response then
        let uploadData :=
          App.uploadData user pendingData (CreateResponse.unique_id response) in
        fst outcome = [created; Upload_call uploadData (upload_reply srv uploadData)]
        /\ snd (snd outcome) = App.settle (upload_reply srv uploadData) app
      else
        fst outcome = [created] /\ snd (snd outcome) = app
        /\ JS.truthy (BatchResolution.error (fst (snd outcome))) = true
  | Threw _ =>
      fst outcome = [created] /\ snd (snd outcome) = app
      /\ JS.truthy (BatchResolution.error (fst (snd outcome))) = true
  end.
Proof.
  intros (Hview & Huser & Hres & Hpend & _) Hname Hid batchData created outcome.
  subst outcome created. unfold App.clickCreateBatch. rewrite Hview, Hres, Huser, Hpend.
  unfold BatchResolution.handleCreateBatch.
  cbn [BatchResolution.setError BatchResolution.setLoading BatchResolution.batchName
       BatchResolution.batchId BatchResolution.batchDescription option_map].
  rewrite !trim_truthy, Hname, Hid. cbn [negb bind run]. fold batchData.
  destruct (create_reply srv batchData) as [response|err].
  - destruct (CreateResponse.success response).
    + cbn [bind snd fst App.fromBatchResolutionAll App.fromBatchResolution].
      unfold App.handleBatchResolved. rewrite Huser, Hpend. cbn. split; reflexivity.
    + cbn. repeat split. now apply opt_or_else_truthy.
  - cbn. repeat split. now apply opt_or_else_truthy.
Qed.

Lemma created_batch_is_uploaded_witness :
  fst (run Scenario.emptyService (App.clickCreateBatch Scenario.newBatch Scenario.paused404))
  = [Create_call
       {| BatchData.batch_name := "Spring batch";
          BatchData.batch_id := "B-404";
          BatchData.batch_description := "";
          BatchData.orcid := "0000-0001";
          BatchData.project := Some "PV" |}
       (create_reply Scenario.emptyService
          {| BatchData.batch_name := "Spring batch";
             BatchData.batch_id := "B-404";
             BatchData.batch_description := "";
             BatchData.orcid := "0000-0001";
             BatchData.project := Some "PV" |});
     Upload_call (App.uploadData Scenario.ada Scenario.pending404 (Some "u-9"))
       (Returned Scenario.accepted)].
Proof.
  apply (created_batch_is_uploaded Scenario.emptyService Scenario.paused404 Scenario.ada
           Scenario.notFound Scenario.pending404 Scenario.newBatch).
  - repeat split.
  - reflexivity.
  - reflexivity.
Defined.

(** X22: in any state, [handleBatchResolved] sends at most one request,
    an upload, and ends with no pending payload and no stored resolution;
    the user stays logged in; the session is on the summary with no alert
    or on the form with exactly one new alert.  Cancelling is the same
    handler with no batch id. *)
Theorem resumption_always_clears (srv : Backend) (app : App.State)
    (resolvedBatchId : option string) :
  let outcome := run srv (App.handleBatchResolved resolvedBatchId app) in
  let after := snd outcome in
  App.pendingUploadData after = None
  /\ App.batchResolution after = None
  /\ (App.currentView after = App.summary /\ App.alerts after = App.alerts app
      \/ App.currentView after = App.main
         /\ exists text, App.alerts after = App.alerts app ++ [text])
  /\ App.userInfo after = App.userInfo app
  /\ App.sessionToken after = App.sessionToken app
  /\ length (fst outcome) <= 1
  /\ (forall e, e ∈ fst outcome -> is_upload e = true)
  /\ App.handleBatchResolutionCancel app = App.handleBatchResolved None app.
Proof.
  unfold App.handleBatchResolved, App.handleBatchResolutionCancel.
  destruct (App.userInfo app) as [user|] eqn:Huser;
    [destruct (App.pendingUploadData app) as [pendingData|] eqn:Hpend|];
    cbn [run fst snd].
  - destruct (upload_reply srv _) as [response|err]; cbn [App.settle];
      [destruct (UploadResponse.success response)|];
      cbn; repeat split; eauto;
      intros e ->%list_elem_of_singleton; reflexivity.
  - cbn. repeat split; eauto. intros e []%elem_of_nil.
  - cbn. repeat split; eauto. intros e []%elem_of_nil.
Qed.

(** X23: an email made of white space only is refused on the spot with
    "Please enter a valid email address" and no request; any other email
    is sent once, trimmed. *)
Theorem login_request (reply : string -> LoginReply) (storage : gmap string string)
    (st : Login.State) :
  let sent := fst (Login.settleWith reply (Login.handleSubmit storage st)) in
  (JS.blank (Login.email st) = true ->
   Login.handleSubmit storage st
   = Login.Done {| Login.state := Login.setError "Please enter a valid email address" st;
                   Login.callbacks := [];
                   Login.localStorage := storage |})
  /\ (JS.blank (Login.email st) = true -> sent = [])
  /\ (JS.blank (Login.email st) = false ->
      sent = [(JS.trim (Login.email st), reply (JS.trim (Login.email st)))]
      /\ JS.trim (JS.trim (Login.email st)) = JS.trim (Login.email st)
      /\ JS.trim (Login.email st) <> "").
Proof.
  unfold Login.handleSubmit. cbn [Login.setError Login.setLoading Login.email].
  rewrite trim_truthy.
  destruct (JS.blank (Login.email st)) eqn:Hb; cbn; repeat split; try discriminate.
  - apply trim_idempotent.
  - intros Hempty. pose proof (trim_truthy (Login.email st)) as Ht.
    rewrite Hempty, Hb in Ht. discriminate Ht.
Qed.

(** X24: the login form keeps the typed email and ends not busy; it calls
    [onLoginSuccess] only for an answer with [success] set, passing the
    answer's user and token and storing the token in [localStorage]; in
    every other case it calls nobody, leaves the storage alone and shows a
    non-empty error. *)
Theorem login_outcome (reply : string -> LoginReply) (storage : gmap string string)
    (st : Login.State) :
  let o := snd (Login.settleWith reply (Login.handleSubmit storage st)) in
  Login.email (Login.state o) = Login.email st
  /\ (Login.loading st = false -> Login.loading (Login.state o) = false)
  /\ length (Login.callbacks o) <= 1
  /\ (Login.callbacks o = [] ->
      JS.truthy (Login.error (Login.state o)) = true
      /\ Login.localStorage o = storage)
  /\ (forall user token,
        Login.callbacks o = [Login.onLoginSuccess user token] ->
        Login.error (Login.state o) = ""
        /\ Login.localStorage o = <["sessionToken" := App.shown token]> storage
        /\ exists response,
             reply (JS.trim (Login.email st)) = LoginReturned response
             /\ LoginResponse.success response = true
             /\ user = LoginResponse.user response
             /\ token = LoginResponse.session_token response).
Proof.
  unfold Login.handleSubmit. cbn [Login.setError Login.setLoading Login.email].
  destruct (JS.truthy (JS.trim (Login.email st))); cbn [negb Login.settleWith snd].
  - destruct (reply (JS.trim (Login.email st))) as [response|err] eqn:Hreply.
    + destruct (LoginResponse.success response) eqn:Hs; cbn.
      * repeat split; try discriminate; try lia.
        -- injection H as <- <-. reflexivity.
        -- injection H as <- <-. eauto.
      * repeat split; try discriminate; try lia. now apply opt_or_else_truthy.
    + cbn. repeat split; try discriminate; try lia.
      repeat (apply opt_or_else_truthy); reflexivity.
  - cbn. repeat split; try discriminate; try lia; trivial.
Qed.

(** ** Concrete instances of the earlier statements *)

Lemma tableData_in_sync_witness :
  tableDataAfter (cleanedRows Scenario.schemaA [Scenario.populatedRow])
    (handleAddRow Scenario.schemaA "Ada" [Scenario.populatedRow])
  = cleanedRows Scenario.schemaA
      (rows_after (handleAddRow Scenario.schemaA "Ada" [Scenario.populatedRow])).
Proof.
  apply (tableData_in_sync Scenario.schemaA "Ada" [Scenario.populatedRow]
           (cleanedRows Scenario.schemaA [Scenario.populatedRow])).
  reflexivity.
Defined.

Lemma createBatch_checked_locally_witness :
  fst (run Scenario.emptyService
         (BatchResolution.handleCreateBatch Scenario.ada (Some "PV") Scenario.strayChoice))
  = [].
Proof.
  apply (createBatch_checked_locally Scenario.emptyService Scenario.ada (Some "PV")
           Scenario.strayChoice).
  left. reflexivity.
Defined.

(** ** Changing the synthesis type *)

(** X25: when a newly selected synthesis type brings the grid up, the
    grid's effect on the new schema throws the old rows away and tells the
    form, so that grid and form start over in step: no row, nothing held
    for submission, and the numbering of identifiers starts from row-0. *)
Theorem type_change_restarts_grid (form : MainForm.State) (value : string)
    (rows : list Row) :
  MainForm.showTable (MainForm.handleSynthesisTypeChange value form) = true ->
  let form' := MainForm.handleSynthesisTypeChange value form in
  let restarted := fieldsEffect (MainForm.currentFields form') rows in
  MainForm.synthesisFields form !! value = Some (MainForm.currentFields form')
  /\ rows_after restarted = []
  /\ onChange_calls restarted = [[]]
  /\ tableDataAfter (MainForm.tableData form') restarted
     = cleanedRows (MainForm.currentFields form') (rows_after restarted)
  /\ wellNumbered (rows_after restarted)
  /\ rows_after (handleAddRow (MainForm.currentFields form') "" (rows_after restarted))
     = [blankRow (MainForm.currentFields form') "" "row-0"].
Proof.
  unfold MainForm.showTable, MainForm.currentFields.
  cbn [MainForm.handleSynthesisTypeChange MainForm.selectedSynthesisType
       MainForm.synthesisFields MainForm.tableData].
  destruct (JS.truthy value); [|discriminate]. cbn [andb].
  destruct (MainForm.synthesisFields form !! value) as [fields|]; [|discriminate].
  destruct fields as [|f fs]; [discriminate|]. intros _.
  cbn [fieldsEffect rows_after onChange_calls].
  repeat split. intros i row Hrow. discriminate Hrow.
Qed.

Lemma type_change_restarts_grid_witness :
  rows_after
    (fieldsEffect
       (MainForm.currentFields
          (MainForm.handleSynthesisTypeChange "Solid Precursor" Scenario.form404))
       [Scenario.populatedRow])
  = [].
Proof.
  apply (type_change_restarts_grid Scenario.form404 "Solid Precursor"
           [Scenario.populatedRow]).
  reflexivity.
Defined.
